(** * k6-operator: segmentation, runner creation and start dispatch

    A shallow embedding of

    - [pkg/segmentation/segmentation.go]  ([NewCommandSegment]),
    - the runner-creation controller      ([CreateJobs], [createJobSpecs],
      [newSharedRunnedConfigmap], [launchTest]),
    - [internal/controller/k6_start.go]   ([Start], [SendStartToHTTPWorker],
      [StartK6FromOperators]),

    together with the properties the design document states about them.

    Conventions.  A Go [int] is a [Z] in the 64-bit signed range with the
    wrap-around of its arithmetic written out; a Go [string] is a [string];
    a Go [error] value is an [option error] ([None] is [nil]); a function
    with several results returns a tuple; a [map[string]string] is a
    [gmap string string].  The reconciler, the logger and the cluster are
    threaded explicitly as state. *)

From Stdlib Require Import ZArith QArith String Ascii Decimal DecimalString DecimalZ DecimalPos.
From stdpp Require Import base option list strings gmap.

#[local] Open Scope Z_scope.

(* ===================================================================== *)
(** ** Go base types *)
(* ===================================================================== *)

Module Go.

(** [int] on the 64-bit platforms the operator is built for. *)
Definition int_min : Z := - 2 ^ 63.
Definition int_max : Z := 2 ^ 63 - 1.
Definition is_int (z : Z) : Prop := int_min <= z <= int_max.

(** Two's complement wrap-around of an arithmetic result. *)
Definition wrap_int (z : Z) : Z := (z + 2 ^ 63) mod 2 ^ 64 - 2 ^ 63.
Definition int_sub (a b : Z) : Z := wrap_int (a - b).

(** An [error] value: its [Error()] text, and whether
    [apierrors.IsNotFound] recognises it (looking through [%w] wrapping). *)
Record error : Type := mkError { Error : string; apiNotFound : bool }.

Definition errors_New (msg : string) : error :=
  {| Error := msg; apiNotFound := false |}.

(** [fmt.Errorf(prefix + "%w", err)]: the text is extended, the wrapped
    error stays visible to [errors.As]. *)
Definition Errorf_w (prefix : string) (err : error) : error :=
  {| Error := prefix +:+ Error err; apiNotFound := apiNotFound err |}.

(** The verb [%d] on an integer. *)
Definition fmt_d (z : Z) : string := NilZero.string_of_int (Z.to_int z).

(** [strings.Join]. *)
Fixpoint strings_Join (elems : list string) (sep : string) : string :=
  match elems with
  | [] => ""
  | [s] => s
  | s :: rest => s +:+ sep +:+ strings_Join rest sep
  end.

(** [strings.Split] for a separator of one character. *)
Fixpoint split_on (c : ascii) (s : string) : list string :=
  match s with
  | "" => [""]
  | String a s' =>
      if Ascii.eqb a c then "" :: split_on c s'
      else match split_on c s' with
           | [] => [String a ""]
           | w :: ws => String a w :: ws
           end
  end.

(** [strings.CutPrefix]. *)
Fixpoint strip_prefix (p s : string) : option string :=
  match p, s with
  | "", _ => Some s
  | String a p', String b s' => if Ascii.eqb a b then strip_prefix p' s' else None
  | String _ _, "" => None
  end.

(** Reading back a [%d] text. *)
Definition parse_d (s : string) : option Z :=
  Z.of_int <$> NilZero.int_of_string s.

(** Characters of a string. *)
Fixpoint chars (s : string) : list ascii :=
  match s with
  | "" => []
  | String a s' => a :: chars s'
  end.

Definition is_digit (a : ascii) : bool :=
  let n := nat_of_ascii a in (48 <=? n)%nat && (n <=? 57)%nat.

Definition is_num_char (a : ascii) : bool :=
  is_digit a || Ascii.eqb a "-".

(** The characters of a partition sequence. *)
Definition plain (a : ascii) : bool :=
  is_num_char a || Ascii.eqb a "," || Ascii.eqb a "/".

End Go.
Import Go.

(* ===================================================================== *)
(** ** pkg/segmentation *)
(* ===================================================================== *)

Module segmentation.

Definition beginning : string := "0".
Definition end_ : string := "1".

Definition getSegmentPart (index total : Z) : string :=
  if index =? 0 then "0"
  else if index =? total then "1"
  else fmt_d index +:+ "/" +:+ fmt_d total.

Definition NewCommandSegment (index total : Z) : string * option error :=
  if index >? total then
    ("", Some (errors_New "node index exceeds configured parallelism"))
  else
    let segment :=
      getSegmentPart (int_sub index 1) total +:+ ":" +:+ getSegmentPart index total in
    ("--execution-segment=" +:+ segment, None).

(** What the load generator reads from the flag: the two bounds, and the
    rational each bound denotes. *)
Definition flag_bounds (flag : string) : option (string * string) :=
  match strip_prefix "--execution-segment=" flag with
  | Some body =>
      match split_on ":" body with
      | [lo; hi] => Some (lo, hi)
      | _ => None
      end
  | None => None
  end.

Definition segment_bounds (r : string * option error) : option (string * string) :=
  match r with
  | (flag, None) => flag_bounds flag
  | (_, Some _) => None
  end.

Definition bound_value (b : string) : option Q :=
  match split_on "/" b with
  | [n] => inject_Z <$> parse_d n
  | [n; d] =>
      match parse_d n, parse_d d with
      | Some n', Some d' => if 0 <? d' then Some (n' # Z.to_pos d') else None
      | _, _ => None
      end
  | _ => None
  end.

(** The boundary table of the design document, in its own words. *)
Inductive boundary (N : Z) : Z -> string -> Prop :=
| boundary_first : boundary N 0 "0"
| boundary_last : boundary N N "1"
| boundary_inner k : 0 < k < N -> boundary N k (fmt_d k +:+ "/" +:+ fmt_d N).

End segmentation.

(* ===================================================================== *)
(** ** time *)
(* ===================================================================== *)

Module time.

(** A [time.Duration] is a count of nanoseconds in an [int64]; an instant is
    the wall-clock count of nanoseconds. *)
Definition Second : Z := 1000000000.
Definition Minute : Z := 60 * Second.

Definition minDuration : Z := - 2 ^ 63.
Definition maxDuration : Z := 2 ^ 63 - 1.

(** [time.Since(t)] read when the clock shows [now]: the difference,
    saturated to the range of a [Duration]. *)
Definition Since (now t : Z) : Z :=
  Z.max minDuration (Z.min maxDuration (now - t)).

(** [d.Seconds() <= 30].  [Seconds] is [float64(d/Second) +
    float64(d%Second)/1e9]; next to 30 that sum is exact to well below a
    nanosecond, so the comparison agrees with the one on nanoseconds. *)
Definition Seconds_le_30 (d : Z) : bool := d <=? 30 * Second.

(** [d.Minutes() > 5], for the same reason. *)
Definition Minutes_gt_5 (d : Z) : bool := d >? 5 * Minute.

End time.

(* ===================================================================== *)
(** ** encoding/json, for the values the controller marshals *)
(* ===================================================================== *)

Module json.

(** [map[string]interface{}] values built from strings, booleans and maps. *)
#[local] Unset Elimination Schemes.
Inductive value : Type :=
| JString (s : string)
| JBool (b : bool)
| JObject (fields : list (string * value)).
#[local] Set Elimination Schemes.

Definition quote : ascii := ascii_of_nat 34.
Definition backslash : ascii := ascii_of_nat 92.

Definition hex_digit (n : nat) : ascii :=
  ascii_of_nat (if (n <? 10)%nat then 48 + n else 87 + n).

(** The encoder's treatment of one byte of a string (HTML escaping on, as
    [json.Marshal] has it); bytes of multi-byte characters pass through. *)
Definition escape_char (a : ascii) : string :=
  let n := nat_of_ascii a in
  if Ascii.eqb a quote then String backslash (String quote "")
  else if Ascii.eqb a backslash then String backslash (String backslash "")
  else if (n =? 8)%nat then String backslash "b"
  else if (n =? 12)%nat then String backslash "f"
  else if (n =? 10)%nat then String backslash "n"
  else if (n =? 13)%nat then String backslash "r"
  else if (n =? 9)%nat then String backslash "t"
  else if (n <? 32)%nat || (n =? 60)%nat || (n =? 62)%nat || (n =? 38)%nat then
    String backslash
      ("u00" +:+ String (hex_digit (n / 16)) (String (hex_digit (n mod 16)) ""))
  else String a "".

Fixpoint escape (s : string) : string :=
  match s with
  | "" => ""
  | String a s' => escape_char a +:+ escape s'
  end.

Definition encode_string (s : string) : string :=
  String quote (escape s) +:+ String quote "".

(** Map keys are emitted in sorted order. *)
Fixpoint insert_sorted (kv : string * string) (l : list (string * string))
  : list (string * string) :=
  match l with
  | [] => [kv]
  | kv' :: l' =>
      if String.leb (fst kv) (fst kv') then kv :: l
      else kv' :: insert_sorted kv l'
  end.

Definition sort_fields (l : list (string * string)) : list (string * string) :=
  foldr insert_sorted [] l.

Definition encode_field (kv : string * string) : string :=
  encode_string (fst kv) +:+ ":" +:+ snd kv.

Fixpoint encode (v : value) : string :=
  match v with
  | JString s => encode_string s
  | JBool b => if b then "true" else "false"
  | JObject fields =>
      let rendered :=
        (fix go (l : list (string * value)) : list (string * string) :=
           match l with
           | [] => []
           | (k, v') :: l' => (k, encode v') :: go l'
           end) fields in
      "{" +:+ strings_Join (encode_field <$> sort_fields rendered) "," +:+ "}"
  end.

(** [json.Marshal]: none of these values can make the encoder fail. *)
Definition Marshal (v : value) : string * option error := (encode v, None).

End json.

(* ===================================================================== *)
(** ** api/v1alpha1 and the Kubernetes objects *)
(* ===================================================================== *)

Module v1alpha1.

Inductive ConditionStatus : Type := ConditionTrue | ConditionFalse | ConditionUnknown.

Inductive ConditionType : Type :=
| TestRunRunning | CloudTestRun | CloudTestRunCreated | CloudPLZTestRun.

#[global] Instance ConditionStatus_eq_dec : EqDecision ConditionStatus.
Proof. solve_decision. Defined.
#[global] Instance ConditionType_eq_dec : EqDecision ConditionType.
Proof. solve_decision. Defined.

Record Condition : Type := mkCondition {
  Type_ : ConditionType;
  Status_ : ConditionStatus;
  LastTransitionTime : Z
}.

Record TestRunSpec : Type := mkSpec {
  Parallelism : Z;
  UseDirectPodIPs : bool;
  UseLegacyStarter : bool;
  Token : string
}.

Record TestRunStatus : Type := mkStatus {
  Stage : string;
  TestRunID : string;
  Conditions : list Condition
}.

Record TestRun : Type := mkTestRun {
  Name : string;
  Namespace : string;
  GetSpec : TestRunSpec;
  GetStatus : TestRunStatus
}.

Record NamespacedName : Type := mkNamespacedName {
  nn_Name : string;
  nn_Namespace : string
}.

Definition NamespacedName_of (k6 : TestRun) : NamespacedName :=
  {| nn_Name := Name k6; nn_Namespace := Namespace k6 |}.

Definition set_Stage (stage : string) (k6 : TestRun) : TestRun :=
  {| Name := Name k6; Namespace := Namespace k6; GetSpec := GetSpec k6;
     GetStatus := {| Stage := stage;
                     TestRunID := TestRunID (GetStatus k6);
                     Conditions := Conditions (GetStatus k6) |} |}.

Definition set_Conditions (cs : list Condition) (k6 : TestRun) : TestRun :=
  {| Name := Name k6; Namespace := Namespace k6; GetSpec := GetSpec k6;
     GetStatus := {| Stage := Stage (GetStatus k6);
                     TestRunID := TestRunID (GetStatus k6);
                     Conditions := cs |} |}.

(** Modelled from the spec: the condition tracker of package [api/v1alpha1]
    ([IsTrue], [IsFalse], [IsUnknown], [LastUpdate], [UpdateCondition],
    [TestRunID]), which is outside the sources verified here.  The design
    document gives a condition a kind, a value among True, False and Unknown
    and the time of its last transition, one condition per kind, the time
    changing only when the value does.  [FindStatusCondition] is the lookup
    of the condition of a kind. *)
Definition FindStatusCondition (cs : list Condition) (ty : ConditionType)
  : option Condition :=
  List.find (fun c => bool_decide (Type_ c = ty)) cs.

(** Modelled from the spec: the value of the condition of a kind is [st]. *)
Definition has_status (k6 : TestRun) (ty : ConditionType) (st : ConditionStatus) : bool :=
  match FindStatusCondition (Conditions (GetStatus k6)) ty with
  | Some c => bool_decide (Status_ c = st)
  | None => false
  end.

(** Modelled from the spec: [v1alpha1.IsTrue]. *)
Definition IsTrue (k6 : TestRun) (ty : ConditionType) : bool :=
  has_status k6 ty ConditionTrue.

(** Modelled from the spec: [v1alpha1.IsFalse]. *)
Definition IsFalse (k6 : TestRun) (ty : ConditionType) : bool :=
  has_status k6 ty ConditionFalse.

(** Modelled from the spec: [v1alpha1.IsUnknown], neither True nor False. *)
Definition IsUnknown (k6 : TestRun) (ty : ConditionType) : bool :=
  negb (IsFalse k6 ty) && negb (IsTrue k6 ty).

(** Modelled from the spec: [v1alpha1.LastUpdate], the time of the last
    transition of the condition of a kind, and whether there is one. *)
Definition LastUpdate (k6 : TestRun) (ty : ConditionType) : Z * bool :=
  match FindStatusCondition (Conditions (GetStatus k6)) ty with
  | Some c => (LastTransitionTime c, true)
  | None => (0, false)
  end.

(** Modelled from the spec: a write of a condition, which moves the
    transition time only when the value changes. *)
Fixpoint SetStatusCondition (cs : list Condition) (ty : ConditionType)
    (st : ConditionStatus) (now : Z) : list Condition :=
  match cs with
  | [] => [ {| Type_ := ty; Status_ := st; LastTransitionTime := now |} ]
  | c :: cs' =>
      if bool_decide (Type_ c = ty) then
        (if bool_decide (Status_ c = st) then c
         else {| Type_ := ty; Status_ := st; LastTransitionTime := now |}) :: cs'
      else c :: SetStatusCondition cs' ty st now
  end.

(** Modelled from the spec: [v1alpha1.UpdateCondition]. *)
Definition UpdateCondition (k6 : TestRun) (ty : ConditionType)
    (st : ConditionStatus) (now : Z) : TestRun :=
  set_Conditions (SetStatusCondition (Conditions (GetStatus k6)) ty st now) k6.

(** Modelled from the spec: [k6.TestRunID()], the assigned run identifier. *)
Definition TestRunID_of (k6 : TestRun) : string := TestRunID (GetStatus k6).

End v1alpha1.
Import v1alpha1.

Module k8s.

Record ObjectMeta : Type := mkObjectMeta {
  om_Name : string;
  om_Namespace : string;
  om_Labels : gmap string string;
  om_Owner : option NamespacedName
}.

Record ConfigMap : Type := mkConfigMap {
  cm_Meta : ObjectMeta;
  cm_Data : gmap string string
}.

(** Of a job the controller reads the image and the command of its first
    container, which every job built by [jobs.NewRunnerJob] has. *)
Record Job : Type := mkJob {
  job_Meta : ObjectMeta;
  job_Image : string;
  job_Command : list string
}.

Record Service : Type := mkService { svc_Meta : ObjectMeta; svc_ClusterIP : string }.

Inductive Object : Type :=
| ObjJob (j : Job)
| ObjService (s : Service)
| ObjConfigMap (c : ConfigMap).

Record Pod : Type := mkPod { pod_Name : string; pod_Phase : string }.

Record ListOptions : Type := mkListOptions {
  lo_Namespace : string;
  lo_LabelSelector : gmap string string
}.

(** [ctrl.Result]. *)
Record Result : Type := mkResult { Requeue : bool; RequeueAfter : Z }.

Definition Result_zero : Result := {| Requeue := false; RequeueAfter := 0 |}.

End k8s.
Import k8s.

(* ===================================================================== *)
(** ** pkg/cloud: what the controller hands to it *)
(* ===================================================================== *)

Module cloud.

(** Modelled from the spec: the events of the cloud reporter of package
    [pkg/cloud], which is outside the sources verified here.  The design
    document has the reporter accept an error kind, a detail message and an
    abort flag, with a run identifier. *)
Inductive ErrorKind : Type := K6OperatorStartError | SetupError.

Record Event : Type := mkEvent {
  ev_Kind : ErrorKind;
  ev_Detail : string;
  ev_Abort : bool
}.

(** Modelled from the spec: [cloud.ErrorEvent], an event of a kind. *)
Definition ErrorEvent (k : ErrorKind) : Event :=
  {| ev_Kind := k; ev_Detail := ""; ev_Abort := false |}.
(** Modelled from the spec: [WithDetail], the detail message is set. *)
Definition WithDetail (d : string) (e : Event) : Event :=
  {| ev_Kind := ev_Kind e; ev_Detail := d; ev_Abort := ev_Abort e |}.
(** Modelled from the spec: [WithAbort], the abort flag is raised. *)
Definition WithAbort (e : Event) : Event :=
  {| ev_Kind := ev_Kind e; ev_Detail := ev_Detail e; ev_Abort := true |}.

(** Modelled from the spec: [cloud.TokenInfo], the cloud token of a run and
    whether it has been loaded. *)
Record TokenInfo : Type := mkTokenInfo {
  Ready : bool;
  ti_value : string;
  ti_secretName : string;
  ti_namespace : string
}.

(** Modelled from the spec: [cloud.NewTokenInfo], a token not yet loaded. *)
Definition NewTokenInfo (secretName namespace : string) : TokenInfo :=
  {| Ready := false; ti_value := ""; ti_secretName := secretName;
     ti_namespace := namespace |}.

End cloud.
Import cloud.

(* ===================================================================== *)
(** ** The dispatch queue: a Go channel of requests *)
(* ===================================================================== *)

Module channel.

(** [TestRequest], the value a worker turns into one HTTP call. *)
Record TestRequest : Type := mkTestRequest {
  req_Namespace : string;
  req_Payload : string;
  req_TestRunName : string;
  req_Method : string;
  req_Url : string
}.

(** A channel as the runtime keeps it: the size of its buffer, the values
    buffered, the number of receivers parked on it, and (for the record) the
    values handed to receivers.  Closing is left out: nothing in these
    sources closes the queue. *)
Record Chan (T : Type) : Type := mkChan {
  dataqsiz : nat;
  qbuf : list T;
  recvq : nat;
  received : list T
}.
Arguments mkChan {T}.
Arguments dataqsiz {T}.
Arguments qbuf {T}.
Arguments recvq {T}.
Arguments received {T}.

(** The runtime's [full]: a send would have to wait. *)
Definition full {T} (c : Chan T) : bool :=
  if (dataqsiz c =? 0)%nat then (recvq c =? 0)%nat
  else (length (qbuf c) =? dataqsiz c)%nat.

(** [select { case c <- v: ... default: ... }]: the send is taken when a
    receiver is parked or the buffer has room, and otherwise the default
    branch runs at once. *)
Definition trysend {T} (v : T) (c : Chan T) : bool * Chan T :=
  if full c then (false, c)
  else if (0 <? recvq c)%nat then
    (true, {| dataqsiz := dataqsiz c; qbuf := qbuf c;
              recvq := Nat.pred (recvq c); received := received c ++ [v] |})
  else if (length (qbuf c) <? dataqsiz c)%nat then
    (true, {| dataqsiz := dataqsiz c; qbuf := qbuf c ++ [v];
              recvq := recvq c; received := received c |})
  else (false, c).

(** Every value that has entered the channel, in order. *)
Definition accepted {T} (c : Chan T) : list T := received c ++ qbuf c.

End channel.
Import channel.

(* ===================================================================== *)
(** ** The controller *)
(* ===================================================================== *)

Module controllers.

(** Log lines: [logr]'s [Info] and [Error] with the logger's accumulated
    values, and the standard library's [log.Printf]. *)
Definition Logger : Type := list (string * string).

Inductive LogEntry : Type :=
| LogInfo (values : Logger) (msg : string) (kv : list (string * string))
| LogError (values : Logger) (err : error) (msg : string) (kv : list (string * string))
| LogPrintf (msg : string).

Definition WithValues (log : Logger) (k v : string) : Logger :=
  log ++ [(k, v)].

Definition len {A} (l : list A) : Z := Z.of_nat (length l).

(** [%v] on a slice of errors, and [%s] on a slice of strings. *)
Definition fmt_v_errors (errs : list error) : string :=
  "[" +:+ strings_Join (Error <$> errs) " " +:+ "]".
Definition fmt_s_strings (l : list string) : string :=
  "[" +:+ strings_Join l " " +:+ "]".

Definition newLabels (name : string) : gmap string string :=
  <["app" := "k6"]> (<["k6_cr" := name]> ∅).

(** The [i/total] entries appended by the loop [for i := 1; i < total; i++],
    whose counter runs over [1 .. total-1]. *)
Definition executionSegmentSequence (total : Z) : list string :=
  foldl (fun acc i => acc ++ [fmt_d i +:+ "/" +:+ fmt_d total]) []
        (seqZ 1 (total - 1)).

Definition newSharedRunnedConfigmap (k6 : TestRun) : option ConfigMap :=
  let total := Parallelism (GetSpec k6) in
  if total <=? 1 then None
  else
    let '(jsonData, _) :=
      json.Marshal
        (json.JObject
           [("executionSegmentSequence",
             json.JString
               ("0," +:+ strings_Join (executionSegmentSequence total) "," +:+ ",1"))]) in
    Some {| cm_Meta := {| om_Name := nn_Name (NamespacedName_of k6);
                          om_Namespace := nn_Namespace (NamespacedName_of k6);
                          om_Labels := newLabels (nn_Name (NamespacedName_of k6));
                          om_Owner := None |};
            cm_Data := {[ "config.json" := jsonData ]} |}.

(** The payload of the start command. *)
Definition startPayload : json.value :=
  json.JObject
    [("data",
      json.JObject
        [("attributes",
          json.JObject [("paused", json.JBool false); ("stopped", json.JBool false)]);
         ("id", json.JString "default");
         ("type", json.JString "status")])].

(** The text of the start command. *)
Definition startBody : string := (json.Marshal startPayload).1.

Section Reconciler.

(** The state of the cluster as the API server holds it. *)
Context {C : Type}.

(** What the controller calls from outside the sources verified here, taken
    as parameters: the controller-runtime client and owner references, and
    the repository's helpers of other packages ([k6.ListOptions],
    [r.hostnames], [runSetup], [r.UpdateStatus], the constructors of package
    [jobs], [tokenInfo.Load], the constant [errMessageTooLong] applied to
    its two arguments). *)
Record Env : Type := mkEnv {
  client_List : ListOptions -> C -> list Pod * option error;
  client_Get : NamespacedName -> C -> option error;
  client_Create : Object -> C -> option error * C;
  http_Get : string -> C -> Z * option error;
  SetControllerReference : TestRun -> ObjectMeta -> ObjectMeta * option error;
  ListOptions_of : TestRun -> ListOptions;
  r_hostnames :
    Logger -> bool -> TestRun -> ListOptions -> C -> (list string * option error) * C;
  runSetup : list string -> Logger -> C -> (option error * bool) * C;
  r_UpdateStatus : TestRun -> Logger -> C -> (TestRun * bool * option error) * C;
  NewRunnerJob : TestRun -> Z -> TokenInfo -> option ConfigMap -> Job * option error;
  NewRunnerService : TestRun -> Z -> Service * option error;
  NewStarterJob : TestRun -> list string -> Job;
  tokenInfo_Load : TokenInfo -> Logger -> C -> (TokenInfo * option error) * C;
  errMessageTooLong : string -> string -> string
}.

(** What a reconcile pass can touch: the cluster, the dispatch queue
    [r.testRequests], the events handed to [r.k6CloudClient], the log and
    the clock, which a pass reads and which stands still while it runs. *)
Record World : Type := mkWorld {
  cluster : C;
  testRequests : Chan TestRequest;
  cloudEvents : list (string * Event);
  logs : list LogEntry;
  clock : Z
}.

Definition M (A : Type) : Type := World -> A * World.

#[local] Instance M_ret : MRet M := fun A a w => (a, w).
#[local] Instance M_bind : MBind M :=
  fun A B k m w => let '(a, w') := m w in k a w'.

Definition emit (e : LogEntry) : M unit :=
  fun w => (tt, {| cluster := cluster w; testRequests := testRequests w;
                   cloudEvents := cloudEvents w; logs := logs w ++ [e];
                   clock := clock w |}).

Definition log_Info (log : Logger) (msg : string) (kv : list (string * string)) : M unit :=
  emit (LogInfo log msg kv).
Definition log_Error (log : Logger) (err : error) (msg : string)
    (kv : list (string * string)) : M unit :=
  emit (LogError log err msg kv).
Definition log_Printf (msg : string) : M unit := emit (LogPrintf msg).

Definition time_Now : M Z := fun w => (clock w, w).

(** A call that reads the cluster, and one that may change it. *)
Definition ask {A} (f : C -> A) : M A := fun w => (f (cluster w), w).
Definition call {A} (f : C -> A * C) : M A :=
  fun w => let '(a, c) := f (cluster w) in
           (a, {| cluster := c; testRequests := testRequests w;
                  cloudEvents := cloudEvents w; logs := logs w; clock := clock w |}).

(** [r.testRequests <- req] under [select] with a [default]. *)
Definition select_send (req : TestRequest) : M bool :=
  fun w => let '(sent, q) := trysend req (testRequests w) in
           (sent, {| cluster := cluster w; testRequests := q;
                     cloudEvents := cloudEvents w; logs := logs w; clock := clock w |}).

(** Modelled from the spec: [cloud.SendTestRunEvents] of package
    [pkg/cloud]; the event reaches the external reporter under the run's
    identifier. *)
Definition SendTestRunEvents (testRunID : string) (log : Logger) (ev : Event) : M unit :=
  fun w => (tt, {| cluster := cluster w; testRequests := testRequests w;
                   cloudEvents := cloudEvents w ++ [(testRunID, ev)];
                   logs := logs w; clock := clock w |}).

(** The world after one more log line, and after more cloud events. *)
Definition logged (e : LogEntry) (w : World) : World :=
  {| cluster := cluster w; testRequests := testRequests w;
     cloudEvents := cloudEvents w; logs := logs w ++ [e]; clock := clock w |}.

Definition reported (evs : list (string * Event)) (w : World) : World :=
  {| cluster := cluster w; testRequests := testRequests w;
     cloudEvents := cloudEvents w ++ evs; logs := logs w; clock := clock w |}.

Variable env : Env.

(** *** k6_start.go *)

(** [http.Get] answers with a status code or fails. *)
Definition isServiceReady (log : Logger) (service : Service) : M bool :=
  '(statusCode, err) ←
    ask (http_Get env ("http://" +:+ svc_ClusterIP service +:+ ":6565/v1/status"));
  match err with
  | Some err =>
      log_Error log err ("failed to get status from " +:+ om_Name (svc_Meta service)) [];;
      mret false
  | None => mret (statusCode <? 400)
  end.

Definition startRequest (k6 : TestRun) (hostname : string) (jsonData : string)
  : TestRequest :=
  {| req_Namespace := Namespace k6;
     req_Payload := jsonData;
     req_TestRunName := Name k6;
     req_Method := "PATCH";
     req_Url := "http://" +:+ hostname +:+ ":" +:+ "6565" +:+ "/v1/status" |}.

Definition SendStartToHTTPWorker (k6 : TestRun) (hostname : string) : M (option error) :=
  match json.Marshal startPayload with
  | (_, Some err) => mret (Some err)
  | (jsonData, None) =>
      let req := startRequest k6 hostname jsonData in
      sent ← select_send req;
      (if sent : bool then
         log_Printf ("Test " +:+ req_TestRunName req +:+ ": url " +:+ req_Url req
                     +:+ " queued")
       else
         log_Printf
           "Test %!s(MISSING): http request channel is full, this is not expected");;
      mret None
  end.

(** The loop of [StartK6FromOperators] over the hostnames, for a given
    per-agent start operation. *)
Fixpoint startAgents (send : TestRun -> string -> M (option error))
    (log : Logger) (k6 : TestRun) (hostnames : list string) (errs : list error)
  : M (list error) :=
  match hostnames with
  | [] => mret errs
  | hostname :: rest =>
      r ← send k6 hostname;
      match r with
      | Some err =>
          log_Error log err "Failed to start k6 agent" [("hostname", hostname)];;
          startAgents send log k6 rest
            (errs ++ [Errorf_w ("failed to start agent on " +:+ hostname +:+ ": ") err])
      | None => startAgents send log k6 rest errs
      end
  end.

Definition StartK6FromOperators_with (send : TestRun -> string -> M (option error))
    (log : Logger) (k6 : TestRun) (hostnames : list string) : M (option error) :=
  log_Info log "Starting k6 agents" [("total", fmt_d (len hostnames))];;
  errs ← startAgents send log k6 hostnames [];
  if 0 <? len errs then
    mret (Some (errors_New ("failed to start " +:+ fmt_d (len errs) +:+ "/"
                           +:+ fmt_d (len hostnames) +:+ " agents: "
                           +:+ fmt_v_errors errs)))
  else mret None.

Definition StartK6FromOperators : Logger -> TestRun -> list string -> M (option error) :=
  StartK6FromOperators_with SendStartToHTTPWorker.

(** The count of the pods in phase Running; a slice is shorter than
    [2^63], so the counter does not wrap. *)
Definition count_running (items : list Pod) : Z :=
  foldl (fun count pod =>
           if negb (String.eqb (pod_Phase pod) "Running") then count else count + 1)
        0 items.

(** [ctrl.SetControllerReference] on a job and on a service. *)
Definition own_service (k6 : TestRun) (service : Service) : Service * option error :=
  match SetControllerReference env k6 (svc_Meta service) with
  | (_, Some err) => (service, Some err)
  | (meta, None) =>
      ({| svc_Meta := meta; svc_ClusterIP := svc_ClusterIP service |}, None)
  end.

Definition own_job (k6 : TestRun) (job : Job) : Job * option error :=
  match SetControllerReference env k6 (job_Meta job) with
  | (_, Some err) => (job, Some err)
  | (meta, None) =>
      ({| job_Meta := meta; job_Image := job_Image job;
          job_Command := job_Command job |}, None)
  end.

(** Lines 133-142 of [Start]: the stage and the condition are advanced and
    the status is persisted. *)
Definition Start_started (log : Logger) (k6 : TestRun)
  : M (TestRun * Result * option error) :=
  log_Info log "Changing stage of TestRun status to started" [];;
  now ← time_Now;
  let k6 := UpdateCondition (set_Stage "started" k6) TestRunRunning ConditionTrue now in
  '(k6', updateHappened, err) ← call (r_UpdateStatus env k6 log);
  match err with
  | Some e => mret (k6', Result_zero, Some e)
  | None =>
      if updateHappened : bool then mret (k6', {| Requeue := true; RequeueAfter := 0 |}, None)
      else mret (k6', Result_zero, None)
  end.

(** Lines 112-131 of [Start]: the start command, from the operator or from
    a starter job. *)
Definition Start_starter (log : Logger) (k6 : TestRun) (res : Result)
    (hostnames : list string) : M (TestRun * Result * option error) :=
  if negb (UseLegacyStarter (GetSpec k6)) then
    err ← StartK6FromOperators log k6 hostnames;
    match err with
    | Some e =>
        log_Error log e "Failed to start k6 test from the operator" [];;
        mret (k6, res, None)
    | None => Start_started log k6
    end
  else
    let '(starter, err) := own_job k6 (NewStarterJob env k6 hostnames) in
    match err with
    | Some e => log_Error log e "Failed to set controller reference for the start job" []
    | None => mret tt
    end;;
    err ← call (client_Create env (ObjJob starter));
    match err with
    | Some e =>
        log_Error log e "Failed to launch k6 test starter" [];;
        mret (k6, res, None)
    | None =>
        log_Info log "Created starter job" [];;
        Start_started log k6
    end.

(** Lines 61-81 of [Start]: the runners are not all running yet. *)
Definition Start_waiting (log : Logger) (k6 : TestRun) (res : Result)
  : M (TestRun * Result * option error) :=
  let '(t, ok) := LastUpdate k6 TestRunRunning in
  if negb ok then
    mret (k6, res, Some (errors_New "cannot find condition TestRunRunning"))
  else
    now ← time_Now;
    (if time.Minutes_gt_5 (time.Since now t) then
       let msg := errMessageTooLong env "runner pods" "runner jobs and pods" in
       log_Info log msg [];;
       if IsTrue k6 CloudTestRun then
         SendTestRunEvents (TestRunID_of k6) log
           (WithAbort (WithDetail msg (ErrorEvent K6OperatorStartError)))
       else mret tt
     else mret tt);;
    mret (k6, res, None).

Definition Start (log : Logger) (k6 : TestRun) : M (TestRun * Result * option error) :=
  let res := {| Requeue := false; RequeueAfter := time.Second |} in
  let log :=
    if 0 <? Z.of_nat (String.length (TestRunID (GetStatus k6)))
    then WithValues log "testRunId" (TestRunID (GetStatus k6)) else log in
  log_Info log "Waiting for pods to get ready" [];;
  let opts := ListOptions_of env k6 in
  '(items, err) ← ask (client_List env opts);
  match err with
  | Some e => log_Error log e "Could not list pods" [];; mret (k6, res, None)
  | None =>
      let count := count_running items in
      log_Info log (fmt_d count +:+ "/" +:+ fmt_d (Parallelism (GetSpec k6))
                    +:+ " runner pods ready") [];;
      if negb (count =? Parallelism (GetSpec k6)) then Start_waiting log k6 res
      else
        '(hostnames, err) ← call (r_hostnames env log true k6 opts);
        match err with
        | Some e => mret (k6, Result_zero, Some e)
        | None =>
            (if negb (UseDirectPodIPs (GetSpec k6)) then
               log_Info log (fmt_d (len hostnames) +:+ "/"
                             +:+ fmt_d (Parallelism (GetSpec k6))
                             +:+ " services ready") []
             else mret tt);;
            if IsTrue k6 CloudPLZTestRun then
              '(err, retry) ← call (runSetup env hostnames log);
              match err with
              | Some e =>
                  if retry : bool then mret (k6, Result_zero, Some e)
                  else
                    log_Error log e "Setup function failed, requesting abort." [];;
                    SendTestRunEvents (TestRunID_of k6) log
                      (WithAbort
                         (WithDetail ("setup function failed: " +:+ Error e)
                                     (ErrorEvent SetupError)));;
                    mret (k6, {| Requeue := false; RequeueAfter := 0 |}, None)
              | None => Start_starter log k6 res hostnames
              end
            else Start_starter log k6 res hostnames
        end
  end.

(** *** The runner-creation controller *)

Definition launchTest (k6 : TestRun) (index : Z) (log : Logger)
    (tokenInfo : TokenInfo) (segmentConfigMap : option ConfigMap) : M (option error) :=
  log_Info log ("Launching k6 test #" +:+ fmt_d index) [];;
  match NewRunnerJob env k6 index tokenInfo segmentConfigMap with
  | (_, Some err) =>
      log_Error log err "Failed to generate k6 test job" [];;
      mret (Some err)
  | (job, None) =>
      log_Info log ("Runner job is ready to start with image `" +:+ job_Image job
                    +:+ "` and command `" +:+ fmt_s_strings (job_Command job) +:+ "`") [];;
      match own_job k6 job with
      | (_, Some err) =>
          log_Error log err "Failed to set controller reference for job" [];;
          mret (Some err)
      | (job, None) =>
          err ← call (client_Create env (ObjJob job));
          match err with
          | Some err =>
              log_Error log err "Failed to launch k6 test" [];;
              mret (Some err)
          | None =>
              if negb (UseDirectPodIPs (GetSpec k6)) then
                match NewRunnerService env k6 index with
                | (_, Some err) =>
                    log_Error log err "Failed to generate k6 test service" [];;
                    mret (Some err)
                | (service, None) =>
                    match own_service k6 service with
                    | (_, Some err) =>
                        log_Error log err
                          "Failed to set controller reference for service" [];;
                        mret (Some err)
                    | (service, None) =>
                        err ← call (client_Create env (ObjService service));
                        match err with
                        | Some err =>
                            log_Error log err "Failed to launch k6 test services" [];;
                            mret (Some err)
                        | None => mret None
                        end
                    end
                end
              else mret None
          end
      end
  end.

(** The loop [for i := 1; i <= Parallelism; i++] of [createJobSpecs], which
    stops at the first index that fails. *)
Fixpoint launchTests (k6 : TestRun) (indices : list Z) (log : Logger)
    (tokenInfo : TokenInfo) (segmentConfigmap : option ConfigMap) : M (option error) :=
  match indices with
  | [] => mret None
  | i :: rest =>
      err ← launchTest k6 i log tokenInfo segmentConfigmap;
      match err with
      | Some err => mret (Some err)
      | None => launchTests k6 rest log tokenInfo segmentConfigmap
      end
  end.

(** Lines 101-111 of [createJobSpecs]: the shared configmap, when there is
    one, is given its owner and created. *)
Definition createJobSpecs_configmap (k6 : TestRun)
  : M (option ConfigMap * option error) :=
  match newSharedRunnedConfigmap k6 with
  | Some segmentConfigmap =>
      match SetControllerReference env k6 (cm_Meta segmentConfigmap) with
      | (_, Some err) => mret (Some segmentConfigmap, Some err)
      | (meta, None) =>
          let segmentConfigmap :=
            {| cm_Meta := meta; cm_Data := cm_Data segmentConfigmap |} in
          err ← call (client_Create env (ObjConfigMap segmentConfigmap));
          mret (Some segmentConfigmap, err)
      end
  | None => mret (None, None)
  end.

Definition createJobSpecs (log : Logger) (k6 : TestRun) (tokenInfo : TokenInfo)
  : M (Result * bool * option error) :=
  let namespacedName :=
    {| nn_Name := nn_Name (NamespacedName_of k6) +:+ "-1";
       nn_Namespace := nn_Namespace (NamespacedName_of k6) |} in
  got ← ask (client_Get env namespacedName);
  if match got with None => true | Some err => negb (apiNotFound err) end then
    let err :=
      match got with
      | None =>
          errors_New ("job with the name " +:+ nn_Name namespacedName
                      +:+ " exists; make sure you've deleted your previous run")
      | Some err => err
      end in
    log_Info log (Error err) [];;
    let '(t, condUpdated) := LastUpdate k6 CloudTestRun in
    now ← time_Now;
    if IsUnknown k6 CloudTestRun || negb condUpdated
       || time.Seconds_le_30 (time.Since now t)
    then mret ({| Requeue := false; RequeueAfter := time.Second * 10 |}, true, None)
    else mret (Result_zero, false, Some err)
  else
    '(segmentConfigmap, err) ← createJobSpecs_configmap k6;
    match err with
    | Some err => mret (Result_zero, false, Some err)
    | None =>
        err ← launchTests k6 (seqZ 1 (Parallelism (GetSpec k6))) log tokenInfo
                segmentConfigmap;
        match err with
        | Some err => mret (Result_zero, false, Some err)
        | None => mret (Result_zero, false, None)
        end
    end.

(** Lines 49-72 of [CreateJobs], once the token is settled. *)
Definition CreateJobs_create (log : Logger) (k6 : TestRun) (tokenInfo : TokenInfo)
  : M (TestRun * Result * option error) :=
  log_Info log "Creating test jobs" [];;
  '(res, recheck, err) ← createJobSpecs log k6 tokenInfo;
  match err with
  | Some err =>
      (if IsTrue k6 CloudTestRun then
         SendTestRunEvents (TestRunID_of k6) log
           (WithAbort
              (WithDetail ("Failed to create runner jobs: " +:+ Error err)
                          (ErrorEvent K6OperatorStartError)))
       else mret tt);;
      mret (k6, res, Some err)
  | None =>
      if recheck : bool then mret (k6, res, None)
      else
        log_Info log "Changing stage of TestRun status to created" [];;
        let k6 := set_Stage "created" k6 in
        '(k6', updateHappened, err) ← call (r_UpdateStatus env k6 log);
        match err with
        | Some e => mret (k6', Result_zero, Some e)
        | None =>
            if updateHappened : bool
            then mret (k6', {| Requeue := true; RequeueAfter := 0 |}, None)
            else mret (k6', Result_zero, None)
        end
  end.

Definition CreateJobs (log : Logger) (k6 : TestRun) : M (TestRun * Result * option error) :=
  let tokenInfo :=
    NewTokenInfo (Token (GetSpec k6)) (nn_Namespace (NamespacedName_of k6)) in
  if IsTrue k6 CloudTestRun && IsTrue k6 CloudTestRunCreated then
    let log := WithValues log "testRunId" (TestRunID (GetStatus k6)) in
    '(tokenInfo, err) ← call (tokenInfo_Load env tokenInfo log);
    match err with
    | Some err =>
        log_Error log err "A problem while getting token." [];;
        mret (k6, Result_zero, None)
    | None =>
        if negb (Ready tokenInfo)
        then mret (k6, {| Requeue := false; RequeueAfter := time.Second * 5 |}, None)
        else CreateJobs_create log k6 tokenInfo
    end
  else CreateJobs_create log k6 tokenInfo.

(** *** Names for what the passes return *)

(** The logger of [Start], with the run identifier when there is one. *)
Definition start_log (log : Logger) (k6 : TestRun) : Logger :=
  if 0 <? Z.of_nat (String.length (TestRunID (GetStatus k6)))
  then WithValues log "testRunId" (TestRunID (GetStatus k6)) else log.

Definition one_second : Result := {| Requeue := false; RequeueAfter := time.Second |}.
Definition ten_seconds : Result :=
  {| Requeue := false; RequeueAfter := time.Second * 10 |}.

(** The event [Start] reports when the runners take too long. *)
Definition stuck_event (k6 : TestRun) : string * Event :=
  (TestRunID_of k6,
   WithAbort (WithDetail (errMessageTooLong env "runner pods" "runner jobs and pods")
                         (ErrorEvent K6OperatorStartError))).

(** The name [createJobSpecs] looks up, and the error of its conflict
    branch for a given result of the lookup. *)
Definition index1_name (k6 : TestRun) : NamespacedName :=
  {| nn_Name := Name k6 +:+ "-1"; nn_Namespace := Namespace k6 |}.

Definition conflict_error (k6 : TestRun) (got : option error) : error :=
  match got with
  | None =>
      errors_New ("job with the name " +:+ (Name k6 +:+ "-1")
                  +:+ " exists; make sure you've deleted your previous run")
  | Some err => err
  end.

(** The event [CreateJobs] reports when the creation fails. *)
Definition create_failed_event (k6 : TestRun) (err : error) : string * Event :=
  (TestRunID_of k6,
   {| ev_Kind := K6OperatorStartError;
      ev_Detail := "Failed to create runner jobs: " +:+ Error err;
      ev_Abort := true |}).

End Reconciler.
End controllers.
Import controllers.

(* ===================================================================== *)
(** ** The design document's formulas *)
(* ===================================================================== *)

Module design.

(** The ordered partition sequence [0,1/N,2/N,...,(N-1)/N,1]. *)
Definition sequence (N : Z) : string :=
  strings_Join
    ("0" :: ((fun i => fmt_d i +:+ "/" +:+ fmt_d N) <$> seqZ 1 (N - 1)) ++ ["1"]) ",".

(** The single entry of the shared artifact, as the encoder writes it. *)
Definition config_json (N : Z) : string :=
  "{" +:+ String json.quote "executionSegmentSequence" +:+ String json.quote ":"
  +:+ String json.quote (sequence N) +:+ String json.quote "}".

(** The aggregate error of a start in which [failed] lists, in order, the
    failing targets with their errors, out of [n] targets. *)
Definition agent_error (failure : string * error) : error :=
  Errorf_w ("failed to start agent on " +:+ failure.1 +:+ ": ") failure.2.

Definition aggregate (failed : list (string * error)) (n : Z) : option error :=
  match failed with
  | [] => None
  | _ =>
      Some (errors_New
              ("failed to start " +:+ fmt_d (len failed) +:+ "/" +:+ fmt_d n
               +:+ " agents: " +:+ fmt_v_errors (agent_error <$> failed)))
  end.

(** The targets among [hostnames] whose start fails, when [outcome] tells
    how the start of each target ends. *)
Definition failing (outcome : string -> option error) (hostnames : list string)
  : list (string * error) :=
  omap (fun h => pair h <$> outcome h) hostnames.

End design.

(* ===================================================================== *)
(** ** A small cluster to run the controller against *)
(* ===================================================================== *)

Module fake.

(** The cluster keeps the objects created so far and the agents called so
    far; it can be told to refuse the service of a given name, to fail the
    listing of pods, and to fail the lookup of a job. *)
Record Cluster : Type := mkCluster {
  pods : list Pod;
  listError : option error;
  getError : option error;
  objects : list Object;
  refusedService : option string;
  called : list string
}.

Definition notFound : error := {| Error := "not found"; apiNotFound := true |}.

Definition has_job (name : NamespacedName) (o : Object) : bool :=
  match o with
  | ObjJob j =>
      String.eqb (om_Name (job_Meta j)) (nn_Name name)
      && String.eqb (om_Namespace (job_Meta j)) (nn_Namespace name)
  | _ => false
  end.

Definition Get (name : NamespacedName) (c : Cluster) : option error :=
  match getError c with
  | Some e => Some e
  | None => if existsb (has_job name) (objects c) then None else Some notFound
  end.

Definition refuses (c : Cluster) (o : Object) : bool :=
  match o, refusedService c with
  | ObjService s, Some name => String.eqb (om_Name (svc_Meta s)) name
  | _, _ => false
  end.

Definition Create (o : Object) (c : Cluster) : option error * Cluster :=
  if refuses c o then (Some (errors_New "service refused"), c)
  else (None, {| pods := pods c; listError := listError c; getError := getError c;
                 objects := objects c ++ [o]; refusedService := refusedService c;
                 called := called c |}).

Definition own (k6 : TestRun) (m : ObjectMeta) : ObjectMeta * option error :=
  ({| om_Name := om_Name m; om_Namespace := om_Namespace m; om_Labels := om_Labels m;
      om_Owner := Some (NamespacedName_of k6) |}, None).

Definition meta_for (k6 : TestRun) (name : string) : ObjectMeta :=
  {| om_Name := name; om_Namespace := Namespace k6;
     om_Labels := newLabels (Name k6); om_Owner := None |}.

Definition env : Env (C := Cluster) :=
  {| client_List := fun _ c => (pods c, listError c);
     client_Get := Get;
     client_Create := Create;
     http_Get := fun _ _ => (200, None);
     SetControllerReference := own;
     ListOptions_of := fun k6 =>
       {| lo_Namespace := Namespace k6; lo_LabelSelector := newLabels (Name k6) |};
     r_hostnames := fun _ _ _ _ c => ((pod_Name <$> pods c, None), c);
     runSetup := fun _ _ c => ((None, false), c);
     r_UpdateStatus := fun k6 _ c => ((k6, true, None), c);
     NewRunnerJob := fun k6 i _ _ =>
       ({| job_Meta := meta_for k6 (Name k6 +:+ "-" +:+ fmt_d i);
           job_Image := "k6";
           job_Command :=
             ["k6"; "run"; (segmentation.NewCommandSegment i (Parallelism (GetSpec k6))).1] |},
        None);
     NewRunnerService := fun k6 i =>
       ({| svc_Meta := meta_for k6 (Name k6 +:+ "-service-" +:+ fmt_d i);
           svc_ClusterIP := "10.0.0.1" |}, None);
     NewStarterJob := fun k6 _ =>
       {| job_Meta := meta_for k6 (Name k6 +:+ "-starter");
          job_Image := "curl"; job_Command := [] |};
     tokenInfo_Load := fun ti _ c =>
       (({| Ready := true; ti_value := "token"; ti_secretName := ti_secretName ti;
            ti_namespace := ti_namespace ti |}, None), c);
     errMessageTooLong := fun what which =>
       "Creation of " +:+ what +:+ " takes too long: check if " +:+ which
       +:+ " were created successfully." |}.

Definition run (parallelism : Z) (conds : list Condition) : TestRun :=
  {| Name := "load"; Namespace := "perf";
     GetSpec := {| Parallelism := parallelism; UseDirectPodIPs := false;
                   UseLegacyStarter := false; Token := "" |};
     GetStatus := {| Stage := "created"; TestRunID := ""; Conditions := conds |} |}.

(** The same run before its jobs are created. *)
Definition fresh (parallelism : Z) (conds : list Condition) : TestRun :=
  set_Stage "initialized" (run parallelism conds).

Definition queue (size : nat) : Chan TestRequest :=
  {| dataqsiz := size; qbuf := []; recvq := 0; received := [] |}.

(** A queue of two slots, both taken. *)
Definition full_queue : Chan TestRequest :=
  {| dataqsiz := 2;
     qbuf := [startRequest (run 2 []) "runner-1" startBody;
              startRequest (run 2 []) "runner-2" startBody];
     recvq := 0; received := [] |}.

Definition world (c : Cluster) (q : Chan TestRequest) (now : Z) : World :=
  {| cluster := c; testRequests := q; cloudEvents := []; logs := []; clock := now |}.

(** A start operation that calls the agent itself: the call is recorded,
    and it fails for the targets that are down. *)
Definition call_agent (hostname : string) (c : Cluster) : Cluster :=
  {| pods := pods c; listError := listError c; getError := getError c;
     objects := objects c; refusedService := refusedService c;
     called := called c ++ [hostname] |}.

Definition direct_send (down : list string) (k6 : TestRun) (hostname : string)
  : M (C := Cluster) (option error) :=
  fun w =>
    (if bool_decide (hostname ∈ down) then Some (errors_New "connection refused")
     else None,
     {| cluster := call_agent hostname (cluster w); testRequests := testRequests w;
        cloudEvents := cloudEvents w; logs := logs w; clock := clock w |}).

Definition running (n : nat) : list Pod :=
  replicate n {| pod_Name := "runner"; pod_Phase := "Running" |}.

Definition empty_cluster : Cluster :=
  {| pods := []; listError := None; getError := None; objects := [];
     refusedService := None; called := [] |}.

(** 199 runners of a run of 200 are up. *)
Definition waiting_cluster : Cluster :=
  {| pods := running 199; listError := None; getError := None;
     objects := []; refusedService := None; called := [] |}.

(** The first job of an earlier run named "load" is still there. *)
Definition stale_cluster : Cluster :=
  {| pods := []; listError := None; getError := None;
     objects :=
       [ObjJob {| job_Meta := meta_for (run 2 []) "load-1";
                  job_Image := "k6"; job_Command := [] |}];
     refusedService := None; called := [] |}.

(** Everything is accepted but the service of the second runner. *)
Definition refusing_cluster : Cluster :=
  {| pods := []; listError := None; getError := None;
     objects := []; refusedService := Some "load-service-2"; called := [] |}.

End fake.

(* ===================================================================== *)
(** ** pkg/resources/containers *)
(* ===================================================================== *)

Module containers.

Section Container.

(** The Kubernetes types the template passes through unread. *)
Context {EnvVar SecurityContext ResourceRequirements : Type}.

(** Of [corev1.Container], the fields the template sets, and the command
    and arguments, which it leaves at their zero value like every other
    field. *)
Record Container : Type := mkContainer {
  c_Name : string;
  c_Image : string;
  c_Command : list string;
  c_Args : list string;
  c_ImagePullPolicy : string;
  c_Env : list EnvVar;
  c_Resources : ResourceRequirements;
  c_SecurityContext : option SecurityContext
}.

Definition NewStartContainer (hostnames : list string) (image : string)
    (imagePullPolicy : string) (command : list string) (env : list EnvVar)
    (securityContext : SecurityContext) (resources : ResourceRequirements)
  : Container :=
  {| c_Name := "k6-curl";
     c_Image := image;
     c_Command := [];
     c_Args := [];
     c_ImagePullPolicy := imagePullPolicy;
     c_Env := env;
     c_Resources := resources;
     c_SecurityContext := Some securityContext |}.

End Container.

End containers.

(* ===================================================================== *)
(** ** What the passes are expected to leave behind *)
(* ===================================================================== *)

Module expect.

(** The invariant the runtime keeps on a channel: the buffer is within its
    size, and receivers park only on an empty buffer. *)
Definition chan_ok {T} (c : Chan T) : Prop :=
  (length (qbuf c) <= dataqsiz c)%nat /\ ((0 < recvq c)%nat -> qbuf c = []).

(** The number of sends a channel takes without waiting. *)
Definition room {T} (c : Chan T) : nat :=
  (recvq c + (dataqsiz c - length (qbuf c)))%nat.

(** The channel after non-blocking sends of the values of a list. *)
Definition send_all {T} (vs : list T) (c : Chan T) : Chan T :=
  foldl (fun q v => (trysend v q).2) c vs.

Section Objects.
Context {C : Type} (env : Env (C := C)).

(** The cluster after the creation of the objects of a list, in order. *)
Definition create_all (objs : list Object) (c : C) : C :=
  foldl (fun c o => (client_Create env o c).2) c objs.

(** The objects of the runner of an index: its job, and its service unless
    pods are addressed directly. *)
Definition runner_job (k6 : TestRun) (tokenInfo : TokenInfo)
    (segmentConfigmap : option ConfigMap) (i : Z) : Job :=
  (own_job env k6 (NewRunnerJob env k6 i tokenInfo segmentConfigmap).1).1.

Definition runner_service (k6 : TestRun) (i : Z) : Service :=
  (own_service env k6 (NewRunnerService env k6 i).1).1.

Definition runner_objects (k6 : TestRun) (tokenInfo : TokenInfo)
    (segmentConfigmap : option ConfigMap) (i : Z) : list Object :=
  ObjJob (runner_job k6 tokenInfo segmentConfigmap i)
  :: (if UseDirectPodIPs (GetSpec k6) then []
      else [ObjService (runner_service k6 i)]).

(** The shared configmap with its owner set, when the run has one. *)
Definition owned_configmap (k6 : TestRun) : option ConfigMap :=
  match newSharedRunnedConfigmap k6 with
  | Some cm =>
      Some {| cm_Meta := (SetControllerReference env k6 (cm_Meta cm)).1;
              cm_Data := cm_Data cm |}
  | None => None
  end.

(** Everything a creation pass creates when nothing fails. *)
Definition run_objects (k6 : TestRun) (tokenInfo : TokenInfo) : list Object :=
  match owned_configmap k6 with
  | Some cm => [ObjConfigMap cm]
  | None => []
  end
  ++ concat (runner_objects k6 tokenInfo (owned_configmap k6)
               <$> seqZ 1 (Parallelism (GetSpec k6))).

(** The world with another cluster. *)
Definition at_cluster (c : C) (w : World (C := C)) : World (C := C) :=
  {| cluster := c; testRequests := testRequests w; cloudEvents := cloudEvents w;
     logs := logs w; clock := clock w |}.

(** The world with another queue. *)
Definition at_queue (q : Chan TestRequest) (w : World (C := C)) : World (C := C) :=
  {| cluster := cluster w; testRequests := q; cloudEvents := cloudEvents w;
     logs := logs w; clock := clock w |}.

(** What a step leaves alone when it touches the cluster and the log only:
    the queue, the events and the clock. *)
Definition same_but_cluster (w w' : World (C := C)) : Prop :=
  testRequests w' = testRequests w /\ cloudEvents w' = cloudEvents w /\
  clock w' = clock w.

(** The logger of [CreateJobs] from the token step on: with the run
    identifier for a cloud test run that has been created. *)
Definition create_log (log : Logger) (k6 : TestRun) : Logger :=
  if IsTrue k6 CloudTestRun && IsTrue k6 CloudTestRunCreated
  then WithValues log "testRunId" (TestRunID (GetStatus k6)) else log.

(** The world in which [Start] reaches its setup step: the two lines on the
    pods are logged, the hostnames are fetched, and the line on the
    services is logged unless pods are addressed directly. *)
Definition ready_world (log : Logger) (k6 : TestRun) (items : list Pod)
    (hostnames : list string) (c : C) (w : World (C := C)) : World (C := C) :=
  let w2 :=
    at_cluster c
      (logged (LogInfo (start_log log k6)
                 (fmt_d (count_running items) +:+ "/"
                  +:+ fmt_d (Parallelism (GetSpec k6)) +:+ " runner pods ready") [])
         (logged (LogInfo (start_log log k6) "Waiting for pods to get ready" []) w)) in
  if negb (UseDirectPodIPs (GetSpec k6)) then
    logged (LogInfo (start_log log k6)
              (fmt_d (len hostnames) +:+ "/" +:+ fmt_d (Parallelism (GetSpec k6))
               +:+ " services ready") []) w2
  else w2.

(** The run as [Start] hands it to the status update. *)
Definition started_run (k6 : TestRun) (now : Z) : TestRun :=
  UpdateCondition (set_Stage "started" k6) TestRunRunning ConditionTrue now.

(** The result of a pass after the status update. *)
Definition update_result (updateHappened : bool) (err : option error) : Result :=
  match err with
  | Some _ => Result_zero
  | None => if updateHappened then {| Requeue := true; RequeueAfter := 0 |}
            else Result_zero
  end.

End Objects.

(** A cluster that accepts every creation. *)
Definition accept (o : Object) (c : fake.Cluster) : option error * fake.Cluster :=
  (None, {| fake.pods := fake.pods c; fake.listError := fake.listError c;
            fake.getError := fake.getError c; fake.objects := fake.objects c ++ [o];
            fake.refusedService := fake.refusedService c;
            fake.called := fake.called c |}).

(** What can be made to go wrong around [fake.env]. *)
Record Knobs : Type := mkKnobs {
  acceptAll : bool;
  ownerError : option error;
  hostnamesError : option error;
  setupResult : option error * bool;
  updateError : option error;
  tokenError : option error;
  tokenReady : bool;
  statusCode : Z;
  httpError : option error
}.

Definition calm : Knobs :=
  {| acceptAll := false; ownerError := None; hostnamesError := None;
     setupResult := (None, false); updateError := None; tokenError := None;
     tokenReady := true; statusCode := 200; httpError := None |}.

Definition lab_env (k : Knobs) : Env (C := fake.Cluster) :=
  {| client_List := client_List fake.env;
     client_Get := client_Get fake.env;
     client_Create := if acceptAll k then accept else fake.Create;
     http_Get := fun _ _ => (statusCode k, httpError k);
     SetControllerReference := fun k6 m =>
       match ownerError k with
       | Some e => (m, Some e)
       | None => fake.own k6 m
       end;
     ListOptions_of := ListOptions_of fake.env;
     r_hostnames := fun _ _ _ _ c =>
       ((pod_Name <$> fake.pods c, hostnamesError k), c);
     runSetup := fun _ _ c => (setupResult k, c);
     r_UpdateStatus := fun k6 _ c => ((k6, true, updateError k), c);
     NewRunnerJob := NewRunnerJob fake.env;
     NewRunnerService := NewRunnerService fake.env;
     NewStarterJob := NewStarterJob fake.env;
     tokenInfo_Load := fun ti _ c =>
       (({| Ready := tokenReady k; ti_value := "token";
            ti_secretName := ti_secretName ti; ti_namespace := ti_namespace ti |},
         tokenError k), c);
     errMessageTooLong := errMessageTooLong fake.env |}.

(** An environment with another [client.Create]. *)
Definition with_Create {C : Type} (create : Object -> C -> option error * C)
    (env : Env (C := C)) : Env (C := C) :=
  {| client_List := client_List env;
     client_Get := client_Get env;
     client_Create := create;
     http_Get := http_Get env;
     SetControllerReference := SetControllerReference env;
     ListOptions_of := ListOptions_of env;
     r_hostnames := r_hostnames env;
     runSetup := runSetup env;
     r_UpdateStatus := r_UpdateStatus env;
     NewRunnerJob := NewRunnerJob env;
     NewRunnerService := NewRunnerService env;
     NewStarterJob := NewStarterJob env;
     tokenInfo_Load := tokenInfo_Load env;
     errMessageTooLong := errMessageTooLong env |}.

Definition is_job (o : Object) : bool :=
  match o with ObjJob _ => true | _ => false end.

Definition is_configmap (o : Object) : bool :=
  match o with ObjConfigMap _ => true | _ => false end.

(** A cluster that refuses the objects of a kind and accepts the others. *)
Definition deny (kind : Object -> bool) (o : Object) (c : fake.Cluster)
  : option error * fake.Cluster :=
  if kind o then (Some (errors_New "forbidden"), c) else accept o c.

(** A run named "load" with the given spec and conditions. *)
Definition run_with (parallelism : Z) (direct legacy : bool) (conds : list Condition)
  : TestRun :=
  {| Name := "load"; Namespace := "perf";
     GetSpec := {| Parallelism := parallelism; UseDirectPodIPs := direct;
                   UseLegacyStarter := legacy; Token := "" |};
     GetStatus := {| Stage := "created"; TestRunID := "42"; Conditions := conds |} |}.

Definition condition (ty : ConditionType) (st : ConditionStatus) : Condition :=
  {| Type_ := ty; Status_ := st; LastTransitionTime := 0 |}.

(** A cluster in which [n] runners are up. *)
Definition up (n : nat) : fake.Cluster :=
  {| fake.pods := fake.running n; fake.listError := None; fake.getError := None;
     fake.objects := []; fake.refusedService := None; fake.called := [] |}.

End expect.

(* ===================================================================== *)
(** * Properties *)
(* ===================================================================== *)

Import segmentation cloud channel.

(** ** Strings and decimal texts *)

Section StringFacts.

Lemma append_nil t : "" +:+ t = t.
Proof. reflexivity. Qed.

Lemma append_cons a s t : String a s +:+ t = String a (s +:+ t).
Proof. reflexivity. Qed.

Lemma chars_app s t : chars (s +:+ t) = chars s ++ chars t.
Proof.
  induction s as [|a s IH]; [done|].
  rewrite append_cons. simpl. by rewrite IH.
Qed.

Lemma append_assoc s t u : (s +:+ t) +:+ u = s +:+ (t +:+ u).
Proof.
  induction s as [|a s IH]; [done|].
  rewrite !append_cons. by rewrite IH.
Qed.

Lemma uint_chars d : Forall (fun a => is_digit a = true) (chars (NilEmpty.string_of_uint d)).
Proof. induction d; simpl; constructor; done. Qed.

Lemma fmt_d_chars z : Forall (fun a => is_num_char a = true) (chars (fmt_d z)).
Proof.
  assert (Hu : forall d, Forall (fun a => is_num_char a = true)
                           (chars (NilZero.string_of_uint d))).
  { intros d. destruct d; try (repeat constructor; done);
      (eapply Forall_impl; [apply uint_chars|]);
      intros a Ha; unfold is_num_char; by rewrite Ha. }
  unfold fmt_d. destruct z; simpl.
  - repeat constructor.
  - apply Hu.
  - constructor; [done | apply Hu].
Qed.

Lemma split_on_absent c s :
  Forall (fun a => Ascii.eqb a c = false) (chars s) -> split_on c s = [s].
Proof.
  induction s as [|a s IH]; simpl; intros H; [done|].
  inversion H as [|? ? Ha Hs]; subst. rewrite Ha, IH; done.
Qed.

Lemma split_on_app c s t :
  Forall (fun a => Ascii.eqb a c = false) (chars s) ->
  split_on c (s +:+ String c t) = s :: split_on c t.
Proof.
  induction s as [|a s IH]; intros H.
  - rewrite append_nil. simpl. by rewrite Ascii.eqb_refl.
  - rewrite append_cons. simpl.
    inversion H as [|? ? Ha Hs]; subst. rewrite Ha, IH; done.
Qed.

Lemma strip_prefix_app p s : strip_prefix p (p +:+ s) = Some s.
Proof.
  induction p as [|a p IH]; [by destruct s|].
  rewrite append_cons. simpl. by rewrite Ascii.eqb_refl.
Qed.

Lemma parse_fmt_d z : parse_d (fmt_d z) = Some z.
Proof.
  unfold parse_d, fmt_d.
  rewrite NilZero.isi.
  - simpl. by rewrite DecimalZ.of_to.
  - destruct z; simpl; try discriminate.
    intros [= H]. by apply Unsigned.to_uint_nonnil in H.
  - destruct z; simpl; try discriminate.
    intros [= H]. by apply Unsigned.to_uint_nonnil in H.
Qed.

Lemma num_char_not c :
  is_num_char c = false -> forall a, is_num_char a = true -> Ascii.eqb a c = false.
Proof.
  intros Hc a Ha. destruct (Ascii.eqb_spec a c) as [->|]; [congruence | done].
Qed.

Lemma fmt_d_without c z :
  is_num_char c = false -> Forall (fun a => Ascii.eqb a c = false) (chars (fmt_d z)).
Proof.
  intros Hc. eapply Forall_impl; [apply fmt_d_chars|].
  intros a Ha. by apply num_char_not.
Qed.

End StringFacts.

(** ** The segmentation engine *)

Lemma wrap_int_id z : is_int z -> wrap_int z = z.
Proof.
  unfold is_int, int_min, int_max, wrap_int. intros H.
  rewrite Z.mod_small; lia.
Qed.

Lemma getSegmentPart_boundary N k :
  1 <= N -> 0 <= k <= N -> boundary N k (getSegmentPart k N).
Proof.
  intros HN Hk. unfold getSegmentPart.
  destruct (Z.eqb_spec k 0) as [->|H0]; [constructor|].
  destruct (Z.eqb_spec k N) as [->|H1]; [constructor|].
  constructor. lia.
Qed.

Lemma getSegmentPart_no_colon k N :
  Forall (fun a => Ascii.eqb a ":" = false) (chars (getSegmentPart k N)).
Proof.
  unfold getSegmentPart.
  destruct (k =? 0); [repeat constructor|].
  destruct (k =? N); [repeat constructor|].
  rewrite !chars_app. repeat apply Forall_app_2.
  - by apply fmt_d_without.
  - repeat constructor.
  - by apply fmt_d_without.
Qed.

Lemma flag_bounds_flag lo hi :
  Forall (fun a => Ascii.eqb a ":" = false) (chars lo) ->
  Forall (fun a => Ascii.eqb a ":" = false) (chars hi) ->
  flag_bounds ("--execution-segment=" +:+ lo +:+ ":" +:+ hi) = Some (lo, hi).
Proof.
  intros Hlo Hhi. unfold flag_bounds.
  rewrite strip_prefix_app.
  change (":" +:+ hi) with (String ":" hi).
  rewrite split_on_app by done.
  by rewrite split_on_absent.
Qed.

Lemma bound_value_part k N :
  1 <= N ->
  exists q, bound_value (getSegmentPart k N) = Some q /\ (q == k # Z.to_pos N)%Q.
Proof.
  intros HN. unfold getSegmentPart.
  destruct (Z.eqb_spec k 0) as [->|H0].
  { exists (inject_Z 0). split; [done|]. unfold Qeq; simpl; lia. }
  destruct (Z.eqb_spec k N) as [->|H1].
  { exists (inject_Z 1). split; [done|]. unfold Qeq; simpl. rewrite Z2Pos.id; lia. }
  exists (k # Z.to_pos N). split; [|reflexivity].
  unfold bound_value.
  change ("/" +:+ fmt_d N) with (String "/" (fmt_d N)).
  rewrite split_on_app by (by apply fmt_d_without).
  rewrite split_on_absent by (by apply fmt_d_without).
  rewrite !parse_fmt_d.
  destruct (Z.ltb_spec 0 N); [done | lia].
Qed.

Lemma NewCommandSegment_ok i N :
  is_int i -> i <= N ->
  NewCommandSegment i N =
    ("--execution-segment=" +:+ getSegmentPart (wrap_int (i - 1)) N +:+ ":"
       +:+ getSegmentPart i N, None).
Proof.
  intros Hi HiN. unfold NewCommandSegment, int_sub.
  destruct (Z.gtb_spec i N); [lia | done].
Qed.

(** C1.  For every parallelism [N >= 1] and index [1 <= i <= N], the lower
    bound read from the flag of segment [i] is the upper bound read from the
    flag of segment [i-1] (whose upper bound, at index 0, is "0"); the
    bounds denote the rationals [(i-1)/N] and [i/N], the first segment starts
    at "0" and the last ends at "1": the segments of [1..N] tile [0,1]
    without gap or overlap. *)
Theorem C1_segments_partition (N i : Z) :
  is_int N -> 1 <= i <= N ->
  exists prev lo hi qlo qhi,
    segment_bounds (NewCommandSegment (i - 1) N) = Some (prev, lo) /\
    segment_bounds (NewCommandSegment i N) = Some (lo, hi) /\
    bound_value lo = Some qlo /\ (qlo == (i - 1) # Z.to_pos N)%Q /\
    bound_value hi = Some qhi /\ (qhi == i # Z.to_pos N)%Q /\
    (qlo < qhi)%Q /\
    (i = 1 -> lo = "0") /\ (i = N -> hi = "1").
Proof.
  intros HN Hi.
  assert (Hint : forall j, -1 <= j <= N -> is_int j).
  { unfold is_int, int_min, int_max in *. intros j Hj. lia. }
  destruct (bound_value_part (i - 1) N) as (qlo & Hlo & Hqlo); [lia|].
  destruct (bound_value_part i N) as (qhi & Hhi & Hqhi); [lia|].
  exists (getSegmentPart (wrap_int (i - 1 - 1)) N), (getSegmentPart (i - 1) N),
    (getSegmentPart i N), qlo, qhi.
  rewrite (NewCommandSegment_ok (i - 1)) by (try apply Hint; lia).
  rewrite (NewCommandSegment_ok i) by (try apply Hint; lia).
  rewrite (wrap_int_id (i - 1)) by (apply Hint; lia).
  simpl. rewrite !flag_bounds_flag by apply getSegmentPart_no_colon.
  repeat split; try done.
  - rewrite Hqlo, Hqhi. unfold Qlt; simpl. lia.
  - intros ->. done.
  - intros ->. unfold getSegmentPart. rewrite Z.eqb_refl.
    destruct (Z.eqb_spec N 0); [lia | done].
Qed.

Lemma C1_segments_partition_witness :
  is_int 4 /\ 1 <= 2 <= 4 /\
  segment_bounds (NewCommandSegment 1 4) = Some ("0", "1/4") /\
  segment_bounds (NewCommandSegment 2 4) = Some ("1/4", "2/4") /\
  exists qlo qhi,
    bound_value "1/4" = Some qlo /\ bound_value "2/4" = Some qhi /\ (qlo < qhi)%Q.
Proof.
  assert (H4 : is_int 4) by (unfold is_int, int_min, int_max; lia).
  assert (H2 : 1 <= 2 <= 4) by lia.
  destruct (C1_segments_partition 4 2 H4 H2)
    as (prev & lo & hi & qlo & qhi & Hp & Hs & Hlo & _ & Hhi & _ & Hlt & _).
  vm_compute in Hp, Hs. injection Hp as <- <-. injection Hs as <-.
  repeat split; try done. by exists qlo, qhi.
Defined.

(** C2, as the code has it.  An index above the parallelism is refused with
    the range error; for [1 <= i <= N] the call succeeds and returns the flag
    [--execution-segment=<lower>:<upper>] with [lower = boundary(i-1)] and
    [upper = boundary(i)] of the design document's table, fractions being
    written unreduced: index 2 of 4 gives [--execution-segment=1/4:2/4],
    index 1 of 1 gives [--execution-segment=0:1], index 6 of 5 fails. *)
Theorem C2_segment_flag (i N : Z) :
  is_int i -> is_int N -> 1 <= N ->
  (N < i ->
   NewCommandSegment i N =
     ("", Some (errors_New "node index exceeds configured parallelism"))) /\
  (1 <= i <= N ->
   exists lower upper,
     boundary N (i - 1) lower /\ boundary N i upper /\
     NewCommandSegment i N = ("--execution-segment=" +:+ lower +:+ ":" +:+ upper, None)) /\
  NewCommandSegment 2 4 = ("--execution-segment=1/4:2/4", None) /\
  NewCommandSegment 1 1 = ("--execution-segment=0:1", None) /\
  (NewCommandSegment 6 5).2 = Some (errors_New "node index exceeds configured parallelism").
Proof.
  intros Hi HN H1. split; [|split; [|done]].
  - intros Hgt. unfold NewCommandSegment.
    destruct (Z.gtb_spec i N); [done | lia].
  - intros Hr.
    exists (getSegmentPart (i - 1) N), (getSegmentPart i N).
    split; [apply getSegmentPart_boundary; lia|].
    split; [apply getSegmentPart_boundary; lia|].
    rewrite NewCommandSegment_ok by (done || lia).
    rewrite wrap_int_id; [done|].
    unfold is_int, int_min, int_max in *. lia.
Qed.

Lemma C2_segment_flag_witness :
  is_int 2 /\ is_int 4 /\ 1 <= 4 /\
  exists lower upper,
    boundary 4 1 lower /\ boundary 4 2 upper /\
    NewCommandSegment 2 4 = ("--execution-segment=" +:+ lower +:+ ":" +:+ upper, None).
Proof.
  assert (H2 : is_int 2) by (unfold is_int, int_min, int_max; lia).
  assert (H4 : is_int 4) by (unfold is_int, int_min, int_max; lia).
  assert (H1 : 1 <= 4) by lia.
  destruct (C2_segment_flag 2 4 H2 H4 H1) as (_ & H & _).
  repeat split; try done. apply H. lia.
Defined.

(** C2 as written fails on the code: index 2 of 4 does not produce the
    text "1/4:1/2" (the flag carries its option name, and 2/4 is not
    reduced), and index 1 of 1 does not produce the bare "0:1". *)
Lemma C2_counterexample :
  NewCommandSegment 2 4 <> ("1/4:1/2", None) /\
  segment_bounds (NewCommandSegment 2 4) <> Some ("1/4", "1/2") /\
  NewCommandSegment 1 1 <> ("0:1", None).
Proof. repeat split; intros H; vm_compute in H; discriminate. Qed.

(** ** The shared partition artifact *)

Lemma foldl_snoc_fmap {A B} (f : A -> B) (l : list A) (acc : list B) :
  foldl (fun acc x => acc ++ [f x]) acc l = acc ++ (f <$> l).
Proof.
  revert acc. induction l as [|x l IH]; intros acc; simpl.
  - by rewrite app_nil_r.
  - rewrite IH. by rewrite <- app_assoc.
Qed.

Lemma executionSegmentSequence_fmap total :
  executionSegmentSequence total =
    (fun i => fmt_d i +:+ "/" +:+ fmt_d total) <$> seqZ 1 (total - 1).
Proof. unfold executionSegmentSequence. by rewrite foldl_snoc_fmap. Qed.

Lemma Join_cons s l sep :
  l <> [] -> strings_Join (s :: l) sep = s +:+ sep +:+ strings_Join l sep.
Proof. by destruct l. Qed.

Lemma Join_snoc l s sep :
  l <> [] -> strings_Join (l ++ [s]) sep = strings_Join l sep +:+ sep +:+ s.
Proof.
  induction l as [|x l IH]; [done|]. intros _.
  destruct l as [|y l]; [done|].
  change ((x :: y :: l) ++ [s]) with (x :: ((y :: l) ++ [s])).
  rewrite Join_cons by done. rewrite IH by done.
  rewrite (Join_cons x (y :: l)) by done.
  by rewrite !append_assoc.
Qed.

Lemma Join_bracket l :
  l <> [] ->
  "0," +:+ strings_Join l "," +:+ ",1" = strings_Join ("0" :: l ++ ["1"]) ",".
Proof.
  intros Hl. rewrite Join_cons by (by destruct l).
  rewrite Join_snoc by done. done.
Qed.

Lemma split_on_Join c l :
  l <> [] ->
  Forall (fun s => Forall (fun a => Ascii.eqb a c = false) (chars s)) l ->
  split_on c (strings_Join l (String c "")) = l.
Proof.
  induction l as [|s l IH]; [done|]. intros _ H.
  inversion H as [|? ? Hs Hl]; subst.
  destruct l as [|t l]; [by apply split_on_absent|].
  rewrite Join_cons by done.
  change (String c "" +:+ strings_Join (t :: l) (String c ""))
    with (String c (strings_Join (t :: l) (String c ""))).
  rewrite split_on_app by done. by rewrite IH.
Qed.

Lemma Join_chars (P : ascii -> Prop) l sep :
  Forall (fun s => Forall P (chars s)) l -> Forall P (chars sep) ->
  Forall P (chars (strings_Join l sep)).
Proof.
  intros Hl Hsep. induction Hl as [|s l Hs Hl IH]; [constructor|].
  destruct l as [|t l]; [done|].
  rewrite Join_cons by done. rewrite !chars_app.
  repeat apply Forall_app_2; auto.
Qed.

Lemma escape_char_plain a : plain a = true -> json.escape_char a = String a "".
Proof. destruct a as [[] [] [] [] [] [] [] []]; vm_compute; done. Qed.

Lemma escape_plain s : Forall (fun a => plain a = true) (chars s) -> json.escape s = s.
Proof.
  induction s as [|a s IH]; [done|]. intros H.
  inversion H as [|? ? Ha Hs]; subst. simpl.
  rewrite escape_char_plain by done. rewrite IH by done. done.
Qed.

Lemma fraction_chars (P : ascii -> Prop) i N :
  (forall a, is_num_char a = true -> P a) -> P "/"%char ->
  Forall P (chars (fmt_d i +:+ "/" +:+ fmt_d N)).
Proof.
  intros Hnum Hslash. rewrite !chars_app.
  repeat apply Forall_app_2.
  - eapply Forall_impl; [apply fmt_d_chars | done].
  - repeat constructor. done.
  - eapply Forall_impl; [apply fmt_d_chars | done].
Qed.

Lemma sequence_items_chars (P : ascii -> Prop) N :
  (forall a, is_num_char a = true -> P a) -> P "/"%char ->
  Forall (fun s => Forall P (chars s))
    ("0" :: ((fun i => fmt_d i +:+ "/" +:+ fmt_d N) <$> seqZ 1 (N - 1)) ++ ["1"]).
Proof.
  intros Hnum Hslash. constructor; [repeat constructor; by apply Hnum|].
  apply Forall_app_2.
  - apply Forall_fmap, Forall_forall. intros i _. by apply fraction_chars.
  - repeat constructor. by apply Hnum.
Qed.

Lemma sequence_plain N : Forall (fun a => plain a = true) (chars (design.sequence N)).
Proof.
  apply Join_chars; [|repeat constructor].
  apply sequence_items_chars; [|done].
  intros a Ha. unfold plain. by rewrite Ha.
Qed.

Lemma sequence_split N :
  1 <= N ->
  split_on "," (design.sequence N) = (fun k => getSegmentPart k N) <$> seqZ 0 (N + 1).
Proof.
  intros HN. unfold design.sequence.
  rewrite split_on_Join; [|done|].
  - rewrite (seqZ_cons 0) by lia.
    replace (Z.pred (N + 1)) with ((N - 1) + 1) by lia.
    rewrite seqZ_app by lia. rewrite fmap_cons, fmap_app.
    f_equal. f_equal.
    + apply list_fmap_ext. intros n k Hk.
      apply lookup_seqZ in Hk as [-> Hn]. unfold getSegmentPart.
      destruct (Z.eqb_spec (Z.succ 0 + Z.of_nat n) 0); [lia|].
      destruct (Z.eqb_spec (Z.succ 0 + Z.of_nat n) N); [lia|]. done.
    + replace (Z.succ 0 + (N - 1)) with N by lia.
      change (seqZ N 1) with [Z.of_nat 0 + N]. change (Z.of_nat 0 + N) with N.
      simpl. unfold getSegmentPart. rewrite Z.eqb_refl.
      destruct (Z.eqb_spec N 0); [lia | done].
  - apply sequence_items_chars; [|done].
    intros a Ha. destruct (Ascii.eqb_spec a ","); [by subst | done].
Qed.

Lemma Marshal_sequence N :
  1 < N ->
  json.Marshal
    (json.JObject
       [("executionSegmentSequence",
         json.JString ("0," +:+ strings_Join (executionSegmentSequence N) "," +:+ ",1"))])
  = (design.config_json N, None).
Proof.
  intros HN. unfold json.Marshal. f_equal.
  rewrite executionSegmentSequence_fmap.
  rewrite Join_bracket.
  2:{ rewrite (seqZ_cons 1) by lia. done. }
  fold (design.sequence N).
  unfold json.encode, json.sort_fields, json.encode_field, json.encode_string; simpl.
  rewrite (escape_plain (design.sequence N)) by apply sequence_plain.
  unfold design.config_json.
  rewrite !append_assoc, !append_cons, !append_nil. done.
Qed.

(** C3.  With parallelism 1 or less the constructor returns nothing; with
    parallelism [N > 1] it returns one configuration object, named after the
    run, whose data has the single key [config.json] holding the JSON object
    with the one member [executionSegmentSequence], the text
    [0,1/N,2/N,...,(N-1)/N,1]: split at the commas it lists the boundaries
    [0..N] of the segmentation engine.  For [N = 3] the text is
    [0,1/3,2/3,1]. *)
Theorem C3_shared_partition_artifact (k6 : TestRun) (N : Z) :
  N = Parallelism (GetSpec k6) ->
  (N <= 1 -> newSharedRunnedConfigmap k6 = None) /\
  (1 < N ->
   exists cm,
     newSharedRunnedConfigmap k6 = Some cm /\
     om_Name (cm_Meta cm) = Name k6 /\
     om_Namespace (cm_Meta cm) = Namespace k6 /\
     cm_Data cm = {[ "config.json" := design.config_json N ]} /\
     split_on "," (design.sequence N) =
       (fun k => getSegmentPart k N) <$> seqZ 0 (N + 1)) /\
  design.sequence 3 = "0,1/3,2/3,1".
Proof.
  intros ->. split; [|split; [|done]].
  - intros H. unfold newSharedRunnedConfigmap.
    destruct (Z.leb_spec (Parallelism (GetSpec k6)) 1); [done | lia].
  - intros H. unfold newSharedRunnedConfigmap.
    destruct (Z.leb_spec (Parallelism (GetSpec k6)) 1); [lia|].
    rewrite Marshal_sequence by done.
    eexists. split; [done|]. simpl. repeat split.
    apply sequence_split. lia.
Qed.

Lemma C3_shared_partition_artifact_witness :
  3 = Parallelism (GetSpec (fake.run 3 [])) /\
  exists cm,
    newSharedRunnedConfigmap (fake.run 3 []) = Some cm /\
    cm_Data cm !! "config.json" = Some (design.config_json 3).
Proof.
  split; [reflexivity|].
  destruct (C3_shared_partition_artifact (fake.run 3 []) 3 eq_refl) as (_ & H & _).
  destruct H as (cm & Hcm & _ & _ & Hdata & _); [lia|].
  exists cm. split; [done|]. rewrite Hdata. apply lookup_singleton_eq.
Defined.

(** ** The start dispatch *)

Ltac run_m :=
  unfold mbind, M_bind, mret, M_ret, ask, call, select_send, time_Now,
    log_Info, log_Error, log_Printf, emit, SendTestRunEvents in *;
  simpl in *.

Section Dispatch.
Context {C : Type}.
Implicit Types (w : World (C := C)) (log : Logger).

Lemma Marshal_startPayload : json.Marshal startPayload = (startBody, None).
Proof. reflexivity. Qed.

Lemma SendStartToHTTPWorker_unfold (k6 : TestRun) hostname w :
  SendStartToHTTPWorker k6 hostname w =
    let req := startRequest k6 hostname startBody in
    let '(sent, q) := trysend req (testRequests w) in
    (None,
     {| cluster := cluster w; testRequests := q; cloudEvents := cloudEvents w;
        logs := logs w ++
          [LogPrintf
             (if sent then
                "Test " +:+ Name k6 +:+ ": url " +:+ req_Url req +:+ " queued"
              else
                "Test %!s(MISSING): http request channel is full, this is not expected")];
        clock := clock w |}).
Proof.
  unfold SendStartToHTTPWorker. rewrite Marshal_startPayload. run_m.
  destruct (trysend _ _) as [[] q]; reflexivity.
Qed.

Lemma SendStartToHTTPWorker_nil (k6 : TestRun) hostname w :
  (SendStartToHTTPWorker k6 hostname w).1 = None.
Proof.
  rewrite SendStartToHTTPWorker_unfold. simpl.
  by destruct (trysend _ _) as [[] q].
Qed.

Lemma SendStartToHTTPWorker_queue (k6 : TestRun) hostname w :
  testRequests (SendStartToHTTPWorker k6 hostname w).2 =
    (trysend (startRequest k6 hostname startBody) (testRequests w)).2.
Proof.
  rewrite SendStartToHTTPWorker_unfold. simpl.
  by destruct (trysend _ _) as [[] q].
Qed.

Lemma trysend_full {T} (v : T) (c : Chan T) : full c = true -> trysend v c = (false, c).
Proof. unfold trysend. by intros ->. Qed.

(** The errors the loop collects, when the outcome of a start depends on the
    target alone. *)
Lemma startAgents_errors (send : TestRun -> string -> M (option error))
    (outcome : string -> option error) log (k6 : TestRun) :
  (forall h w, (send k6 h w).1 = outcome h) ->
  forall hostnames errs w,
    (startAgents send log k6 hostnames errs w).1 =
      errs ++ (design.agent_error <$> design.failing outcome hostnames).
Proof.
  intros Hsend. induction hostnames as [|h hs IH]; intros errs w; simpl.
  - by rewrite app_nil_r.
  - run_m. specialize (Hsend h w).
    destruct (send k6 h w) as [r w1]. simpl in Hsend. subst r.
    unfold design.failing. simpl.
    destruct (outcome h) as [e|]; simpl.
    + rewrite IH. by rewrite <- app_assoc.
    + by rewrite IH.
Qed.

Lemma startAgents_queue log (k6 : TestRun) hostnames :
  forall errs w,
    testRequests (startAgents SendStartToHTTPWorker log k6 hostnames errs w).2 =
      foldl (fun q h => (trysend (startRequest k6 h startBody) q).2)
            (testRequests w) hostnames.
Proof.
  induction hostnames as [|h hs IH]; intros errs w; simpl; [done|].
  run_m.
  pose proof (SendStartToHTTPWorker_nil k6 h w) as Hnil.
  pose proof (SendStartToHTTPWorker_queue k6 h w) as Hq.
  destruct (SendStartToHTTPWorker k6 h w) as [r w1]. simpl in *. subst r.
  rewrite IH. by rewrite Hq.
Qed.

Lemma StartK6FromOperators_with_result send log (k6 : TestRun) hostnames w :
  (StartK6FromOperators_with send log k6 hostnames w).1 =
    let errs :=
      (startAgents send log k6 hostnames []
         ((log_Info log "Starting k6 agents" [("total", fmt_d (len hostnames))] w).2)).1 in
    if 0 <? len errs then
      Some (errors_New ("failed to start " +:+ fmt_d (len errs) +:+ "/"
                        +:+ fmt_d (len hostnames) +:+ " agents: "
                        +:+ fmt_v_errors errs))
    else None.
Proof.
  unfold StartK6FromOperators_with. run_m.
  destruct (startAgents _ _ _ _ _ _) as [errs w1]. simpl.
  by destruct (0 <? len errs).
Qed.

Lemma StartK6FromOperators_with_state send log (k6 : TestRun) hostnames w :
  (StartK6FromOperators_with send log k6 hostnames w).2 =
    (startAgents send log k6 hostnames []
       ((log_Info log "Starting k6 agents" [("total", fmt_d (len hostnames))] w).2)).2.
Proof.
  unfold StartK6FromOperators_with. run_m.
  destruct (startAgents _ _ _ _ _ _) as [errs w1]. simpl.
  by destruct (0 <? len errs).
Qed.

Lemma failing_nil outcome hostnames :
  design.failing outcome hostnames = [] <-> forall h, h ∈ hostnames -> outcome h = None.
Proof.
  unfold design.failing. induction hostnames as [|h hs IH]; simpl.
  - split; [|done]. intros _ h Hh. by apply elem_of_nil in Hh.
  - destruct (outcome h) as [e|] eqn:He; simpl.
    + split; [done|]. intros H. specialize (H h (list_elem_of_here _ _)). congruence.
    + rewrite IH. split.
      * intros H h' Hh'. apply elem_of_cons in Hh' as [->|]; auto.
      * intros H h' Hh'. apply H. by apply list_elem_of_further.
Qed.

Lemma aggregate_of_errors (failed : list (string * error)) (n : Z) :
  (let errs := design.agent_error <$> failed in
   if 0 <? len errs then
     Some (errors_New ("failed to start " +:+ fmt_d (len errs) +:+ "/"
                       +:+ fmt_d n +:+ " agents: " +:+ fmt_v_errors errs))
   else None) = design.aggregate failed n.
Proof.
  destruct failed as [|f failed]; [done|].
  simpl. unfold len. rewrite length_cons, length_fmap.
  destruct (Z.ltb_spec 0 (Z.of_nat (S (length failed)))); [done | lia].
Qed.

End Dispatch.

(** C7.  When the dispatch queue is full, the enqueue of a start request
    returns at once with no error and the request is dropped: the queue is
    left as it was (nothing buffered, nothing handed to a worker), and the
    only trace is a log line. *)
Theorem C7_full_queue_sheds {C : Type} (k6 : TestRun) (hostname : string)
    (w : World (C := C)) :
  full (testRequests w) = true ->
  SendStartToHTTPWorker k6 hostname w =
    (None,
     {| cluster := cluster w; testRequests := testRequests w;
        cloudEvents := cloudEvents w;
        logs := logs w ++
          [LogPrintf
             "Test %!s(MISSING): http request channel is full, this is not expected"];
        clock := clock w |}).
Proof.
  intros Hfull. rewrite SendStartToHTTPWorker_unfold. simpl.
  by rewrite trysend_full.
Qed.

Lemma C7_full_queue_sheds_witness :
  let w := fake.world fake.empty_cluster fake.full_queue 0 in
  full (testRequests w) = true /\
  (SendStartToHTTPWorker (fake.run 2 []) "runner-1" w).1 = None /\
  testRequests (SendStartToHTTPWorker (fake.run 2 []) "runner-1" w).2 = fake.full_queue.
Proof.
  split; [reflexivity|].
  rewrite (C7_full_queue_sheds (fake.run 2 []) "runner-1"
             (fake.world fake.empty_cluster fake.full_queue 0) eq_refl).
  split; reflexivity.
Defined.

(** C10.  The constant start payload always marshals; [SendStartToHTTPWorker]
    therefore returns no error whatever the state of the queue, a request
    dropped on a full queue included, and [StartK6FromOperators] returns no
    error for any list of hostnames: its aggregate error is out of reach,
    and a pass of [Start] that starts the runners from the operator always
    goes on to mark the run started. *)
Theorem C10_start_never_fails {C : Type} (env : Env (C := C)) (log : Logger)
    (k6 : TestRun) (hostnames : list string) (w : World (C := C)) :
  (json.Marshal startPayload).2 = None /\
  (forall hostname (w' : World (C := C)),
      (SendStartToHTTPWorker k6 hostname w').1 = None) /\
  (StartK6FromOperators log k6 hostnames w).1 = None /\
  (forall res,
      UseLegacyStarter (GetSpec k6) = false ->
      Start_starter env log k6 res hostnames w =
        Start_started env log k6 (StartK6FromOperators log k6 hostnames w).2).
Proof.
  assert (Hnil : (StartK6FromOperators log k6 hostnames w).1 = None).
  { unfold StartK6FromOperators. rewrite StartK6FromOperators_with_result.
    rewrite (startAgents_errors SendStartToHTTPWorker (fun _ => None))
      by (intros; apply SendStartToHTTPWorker_nil).
    replace (design.failing (fun _ => None) hostnames) with (@nil (string * error));
      [done|].
    symmetry. by apply failing_nil. }
  split; [done|]. split; [intros; apply SendStartToHTTPWorker_nil|].
  split; [done|].
  intros res Hlegacy. unfold Start_starter. rewrite Hlegacy. simpl. run_m.
  destruct (StartK6FromOperators log k6 hostnames w) as [r w1].
  simpl in Hnil. by subst r.
Qed.

Lemma C10_start_never_fails_witness :
  let k6 := fake.run 3 [] in
  let w := fake.world fake.empty_cluster fake.full_queue 0 in
  UseLegacyStarter (GetSpec k6) = false /\
  (Start_starter fake.env [] k6 one_second ["runner-1"; "runner-2"; "runner-3"] w).1.2
    = None /\
  Stage (GetStatus
           (Start_starter fake.env [] k6 one_second
              ["runner-1"; "runner-2"; "runner-3"] w).1.1.1) = "started".
Proof.
  intros k6 w. split; [reflexivity|].
  destruct (C10_start_never_fails fake.env [] k6 ["runner-1"; "runner-2"; "runner-3"] w)
    as (_ & _ & _ & H).
  rewrite (H one_second eq_refl). split; reflexivity.
Defined.

Lemma startAgents_direct_calls (down : list string) (log : Logger) (k6 : TestRun)
    (hostnames : list string) :
  forall errs (w : World (C := fake.Cluster)),
    fake.called (cluster (startAgents (fake.direct_send down) log k6 hostnames errs w).2)
    = fake.called (cluster w) ++ hostnames.
Proof.
  induction hostnames as [|h hs IH]; intros errs w; simpl.
  - by rewrite app_nil_r.
  - unfold fake.direct_send at 1. run_m.
    destruct (bool_decide (h ∈ down)); rewrite IH; simpl; by rewrite <- app_assoc.
Qed.

(** C6, as the code has it.  The loop of the operator-driven start makes one
    start attempt per target, in order and without stopping at a failure;
    when the outcome of an attempt is an error for [k] of the [n] targets it
    returns one error, "failed to start k/n agents:" followed by the wrapped
    error of every failing target, and it returns no error exactly when no
    attempt returned one; an attempt that calls the agent reaches every
    target once, in order, whichever targets fail.  In the code an attempt
    is a non-blocking enqueue on the dispatch queue, one per target: it
    returns no error, so with it the function returns no error, whether the
    queue took the request or dropped it. *)
Theorem C6_aggregate_start {C : Type}
    (send : TestRun -> string -> M (C := C) (option error))
    (outcome : string -> option error) (log : Logger) (k6 : TestRun)
    (hostnames : list string) (w : World (C := C)) :
  (forall h w', (send k6 h w').1 = outcome h) ->
  (StartK6FromOperators_with send log k6 hostnames w).1 =
    design.aggregate (design.failing outcome hostnames) (len hostnames) /\
  ((StartK6FromOperators_with send log k6 hostnames w).1 = None <->
   forall h, h ∈ hostnames -> outcome h = None) /\
  (forall down (w0 : World (C := fake.Cluster)),
      fake.called
        (cluster (StartK6FromOperators_with (fake.direct_send down) log k6 hostnames w0).2)
      = fake.called (cluster w0) ++ hostnames) /\
  (StartK6FromOperators log k6 hostnames w).1 = None /\
  testRequests (StartK6FromOperators log k6 hostnames w).2 =
    foldl (fun q h => (trysend (startRequest k6 h (json.Marshal startPayload).1) q).2)
          (testRequests w) hostnames.
Proof.
  intros Hsend.
  assert (Hres : (StartK6FromOperators_with send log k6 hostnames w).1 =
                 design.aggregate (design.failing outcome hostnames) (len hostnames)).
  { rewrite StartK6FromOperators_with_result.
    rewrite (startAgents_errors send outcome) by done.
    apply aggregate_of_errors. }
  split; [done|]. split; [|split; [|split]].
  - rewrite Hres, <- failing_nil.
    by destruct (design.failing outcome hostnames).
  - intros down w0. rewrite StartK6FromOperators_with_state.
    by rewrite startAgents_direct_calls.
  - unfold StartK6FromOperators. rewrite StartK6FromOperators_with_result.
    rewrite (startAgents_errors SendStartToHTTPWorker (fun _ => None))
      by (intros; apply SendStartToHTTPWorker_nil).
    replace (design.failing (fun _ => None) hostnames) with (@nil (string * error));
      [done|].
    symmetry. by apply failing_nil.
  - unfold StartK6FromOperators. rewrite StartK6FromOperators_with_state.
    by rewrite startAgents_queue.
Qed.

Lemma C6_aggregate_start_witness :
  let down := ["runner-2"; "runner-4"] in
  let hostnames := ["runner-1"; "runner-2"; "runner-3"; "runner-4"; "runner-5"] in
  let r := StartK6FromOperators_with (fake.direct_send down) [] (fake.run 5 []) hostnames
             (fake.world fake.empty_cluster (fake.queue 8) 0) in
  (forall h (w' : World),
      (fake.direct_send down (fake.run 5 []) h w').1 =
        (if bool_decide (h ∈ down) then Some (errors_New "connection refused")
         else None)) /\
  r.1 = Some (errors_New
                ("failed to start 2/5 agents: "
                 +:+ "[failed to start agent on runner-2: connection refused "
                 +:+ "failed to start agent on runner-4: connection refused]")) /\
  fake.called (cluster r.2) = hostnames.
Proof.
  intros down hostnames r. split; [intros; reflexivity|].
  destruct (C6_aggregate_start (fake.direct_send down)
              (fun h => if bool_decide (h ∈ down)
                        then Some (errors_New "connection refused") else None)
              [] (fake.run 5 []) hostnames
              (fake.world fake.empty_cluster (fake.queue 8) 0)) as (H & _ & Hcalls & _).
  - intros; reflexivity.
  - subst r. rewrite H, Hcalls. split; vm_compute; reflexivity.
Defined.

(** C6 as written fails on the code: with room for three requests in the
    queue, a start of five targets hands a request to the first three only;
    the last two targets get none, and still no error is returned, where
    the design document has an error naming 2/5 and the two targets. *)
Lemma C6_counterexample :
  let k6 := fake.run 5 [] in
  let hostnames := ["runner-1"; "runner-2"; "runner-3"; "runner-4"; "runner-5"] in
  let r := StartK6FromOperators [] k6 hostnames
             (fake.world fake.empty_cluster (fake.queue 3) 0) in
  accepted (testRequests r.2) =
    (fun h => startRequest k6 h startBody) <$> ["runner-1"; "runner-2"; "runner-3"] /\
  (startRequest k6 "runner-4" startBody ∉ accepted (testRequests r.2)) /\
  (startRequest k6 "runner-5" startBody ∉ accepted (testRequests r.2)) /\
  r.1 = None.
Proof.
  intros k6 hostnames r.
  assert (Hacc : accepted (testRequests r.2) =
                 (fun h => startRequest k6 h startBody)
                   <$> ["runner-1"; "runner-2"; "runner-3"]) by (vm_compute; reflexivity).
  split; [exact Hacc|]. rewrite Hacc.
  split; [|split; [|vm_compute; reflexivity]].
  - intros H. apply list_elem_of_In in H. vm_compute in H.
    repeat (destruct H as [H|H]; [discriminate H|]). exact H.
  - intros H. apply list_elem_of_In in H. vm_compute in H.
    repeat (destruct H as [H|H]; [discriminate H|]). exact H.
Qed.

(** ** The readiness wait *)

Section Readiness.
Context {C : Type} (env : Env (C := C)).
Implicit Types (w : World (C := C)) (log : Logger).

Lemma Start_not_ready log (k6 : TestRun) w items :
  client_List env (ListOptions_of env k6) (cluster w) = (items, None) ->
  count_running items <> Parallelism (GetSpec k6) ->
  Start env log k6 w =
    Start_waiting env (start_log log k6) k6 one_second
      (logged (LogInfo (start_log log k6)
                 (fmt_d (count_running items) +:+ "/"
                  +:+ fmt_d (Parallelism (GetSpec k6)) +:+ " runner pods ready") [])
         (logged (LogInfo (start_log log k6) "Waiting for pods to get ready" []) w)).
Proof.
  intros Hlist Hcount. unfold Start. fold (start_log log k6). fold one_second.
  run_m. rewrite Hlist.
  destruct (Z.eqb_spec (count_running items) (Parallelism (GetSpec k6))); [done|].
  reflexivity.
Qed.

Lemma Start_waiting_result log (k6 : TestRun) res w :
  let r := Start_waiting env log k6 res w in
  r.1 = (k6, res,
         if (LastUpdate k6 TestRunRunning).2 then None
         else Some (errors_New "cannot find condition TestRunRunning")) /\
  cluster r.2 = cluster w /\
  testRequests r.2 = testRequests w /\
  cloudEvents r.2 =
    cloudEvents w ++
      (if (LastUpdate k6 TestRunRunning).2
          && time.Minutes_gt_5 (time.Since (clock w) (LastUpdate k6 TestRunRunning).1)
          && IsTrue k6 CloudTestRun
       then [stuck_event env k6] else []).
Proof.
  unfold Start_waiting, stuck_event.
  destruct (LastUpdate k6 TestRunRunning) as [t [|]]; run_m.
  - destruct (time.Minutes_gt_5 _); run_m.
    + destruct (IsTrue k6 CloudTestRun); run_m; by rewrite ?app_nil_r.
    + by rewrite app_nil_r.
  - by rewrite app_nil_r.
Qed.

Lemma Since_gt now t d :
  0 <= d < time.maxDuration -> (d < time.Since now t <-> d < now - t).
Proof. unfold time.Since, time.maxDuration, time.minDuration. lia. Qed.

Lemma Since_le now t d :
  0 <= d < time.maxDuration -> (time.Since now t <= d <-> now - t <= d).
Proof. unfold time.Since, time.maxDuration, time.minDuration. lia. Qed.

End Readiness.

(** C4.  In a pass of [Start] that lists fewer running pods than the
    parallelism (199 of 200, say), for a run whose status carries its
    Running condition, as the data model gives every run one condition of
    each kind: no error is returned, the run is returned as it was, stage
    and conditions untouched, the result asks for a requeue after one
    second, and nothing is created or dispatched. *)
Theorem C4_readiness_gate {C : Type} (env : Env (C := C)) (log : Logger)
    (k6 : TestRun) (w : World (C := C)) (items : list Pod) :
  client_List env (ListOptions_of env k6) (cluster w) = (items, None) ->
  count_running items < Parallelism (GetSpec k6) ->
  (LastUpdate k6 TestRunRunning).2 = true ->
  let r := Start env log k6 w in
  r.1 = (k6, {| Requeue := false; RequeueAfter := time.Second |}, None) /\
  cluster r.2 = cluster w /\
  testRequests r.2 = testRequests w.
Proof.
  intros Hlist Hcount Hcond r. subst r.
  rewrite (Start_not_ready env log k6 w items) by (done || lia).
  destruct (Start_waiting_result env (start_log log k6) k6 one_second
              (logged (LogInfo (start_log log k6)
                         (fmt_d (count_running items) +:+ "/"
                          +:+ fmt_d (Parallelism (GetSpec k6))
                          +:+ " runner pods ready") [])
                 (logged (LogInfo (start_log log k6) "Waiting for pods to get ready" [])
                    w)))
    as (H1 & H2 & H3 & _).
  rewrite H1, Hcond. done.
Qed.

Lemma C4_readiness_gate_witness :
  let k6 := fake.run 200 [ {| Type_ := TestRunRunning; Status_ := ConditionFalse;
                              LastTransitionTime := 0 |} ] in
  let w := fake.world fake.waiting_cluster (fake.queue 4) time.Second in
  count_running (fake.running 199) < Parallelism (GetSpec k6) /\
  (LastUpdate k6 TestRunRunning).2 = true /\
  (Start fake.env [] k6 w).1 =
    (k6, {| Requeue := false; RequeueAfter := time.Second |}, None).
Proof.
  intros k6 w. split; [vm_compute; reflexivity|]. split; [reflexivity|].
  destruct (C4_readiness_gate fake.env [] k6 w (fake.running 199))
    as (H1 & _); [reflexivity | vm_compute; reflexivity | reflexivity |].
  exact H1.
Defined.

(** The branch of [Start] marked "this should never happen": were the
    status to carry no Running condition, the same pass would return an
    error, still with the requeue after one second and the run as it was. *)
Lemma Start_without_Running_condition :
  let k6 := fake.run 200 [] in
  let w := fake.world fake.waiting_cluster (fake.queue 4) time.Second in
  (Start fake.env [] k6 w).1 =
    (k6, {| Requeue := false; RequeueAfter := time.Second |},
     Some (errors_New "cannot find condition TestRunRunning")).
Proof. vm_compute. reflexivity. Qed.

(** C9.  In a pass of [Start] in which the running pods are not as many as
    the parallelism and the Running condition last changed more than five
    minutes ago, an abort event of kind start-error is handed to the cloud
    reporter when the run is cloud-backed and none otherwise, and in both
    cases the pass returns the requeue after one second, no error, and the
    run as it was. *)
Theorem C9_stuck_readiness {C : Type} (env : Env (C := C)) (log : Logger)
    (k6 : TestRun) (w : World (C := C)) (items : list Pod) (t : Z) :
  client_List env (ListOptions_of env k6) (cluster w) = (items, None) ->
  count_running items <> Parallelism (GetSpec k6) ->
  LastUpdate k6 TestRunRunning = (t, true) ->
  5 * time.Minute < clock w - t ->
  let r := Start env log k6 w in
  r.1 = (k6, {| Requeue := false; RequeueAfter := time.Second |}, None) /\
  cloudEvents r.2 =
    cloudEvents w ++
      (if IsTrue k6 CloudTestRun then
         [(TestRunID_of k6,
           {| ev_Kind := K6OperatorStartError;
              ev_Detail := errMessageTooLong env "runner pods" "runner jobs and pods";
              ev_Abort := true |})]
       else []).
Proof.
  intros Hlist Hcount Hlast Hlong r. subst r.
  rewrite (Start_not_ready env log k6 w items) by done.
  destruct (Start_waiting_result env (start_log log k6) k6 one_second
              (logged (LogInfo (start_log log k6)
                         (fmt_d (count_running items) +:+ "/"
                          +:+ fmt_d (Parallelism (GetSpec k6))
                          +:+ " runner pods ready") [])
                 (logged (LogInfo (start_log log k6) "Waiting for pods to get ready" [])
                    w)))
    as (H1 & _ & _ & H4).
  rewrite H1, H4, Hlast. simpl. split; [done|].
  assert (Hgt : time.Minutes_gt_5 (time.Since (clock w) t) = true).
  { unfold time.Minutes_gt_5. apply Z.gtb_lt, Since_gt; [|done].
    unfold time.maxDuration, time.Minute, time.Second. lia. }
  rewrite Hgt. done.
Qed.

Lemma C9_stuck_readiness_witness :
  let k6 := fake.run 200 [ {| Type_ := TestRunRunning; Status_ := ConditionFalse;
                              LastTransitionTime := 0 |};
                           {| Type_ := CloudTestRun; Status_ := ConditionTrue;
                              LastTransitionTime := 0 |} ] in
  let w := fake.world fake.waiting_cluster (fake.queue 4) (6 * time.Minute) in
  5 * time.Minute < clock w - 0 /\
  (Start fake.env [] k6 w).1 =
    (k6, {| Requeue := false; RequeueAfter := time.Second |}, None) /\
  length (cloudEvents (Start fake.env [] k6 w).2) = 1%nat.
Proof.
  intros k6 w. split; [vm_compute; reflexivity|].
  destruct (C9_stuck_readiness fake.env [] k6 w (fake.running 199) 0)
    as (H1 & H2); [reflexivity | vm_compute; discriminate | reflexivity
                   | vm_compute; reflexivity |].
  split; [exact H1|]. rewrite H2. reflexivity.
Defined.

(** ** Runner creation *)

Section Creation.
Context {C : Type} (env : Env (C := C)).
Implicit Types (w : World (C := C)) (log : Logger).

Lemma createJobSpecs_conflict log (k6 : TestRun) tokenInfo w got :
  client_Get env (index1_name k6) (cluster w) = got ->
  match got with None => True | Some e => apiNotFound e = false end ->
  createJobSpecs env log k6 tokenInfo w =
    ((if IsUnknown k6 CloudTestRun || negb (LastUpdate k6 CloudTestRun).2
         || time.Seconds_le_30 (time.Since (clock w) (LastUpdate k6 CloudTestRun).1)
      then (ten_seconds, true, None)
      else (Result_zero, false, Some (conflict_error k6 got))),
     logged (LogInfo log (Error (conflict_error k6 got)) []) w).
Proof.
  intros Hget Hconf. unfold createJobSpecs. run_m.
  fold (index1_name k6). rewrite Hget.
  destruct (LastUpdate k6 CloudTestRun) as [t upd]. simpl.
  destruct got as [e|]; simpl in *.
  - rewrite Hconf. simpl. run_m.
    destruct (IsUnknown k6 CloudTestRun || negb upd
              || time.Seconds_le_30 (time.Since (clock w) t)); reflexivity.
  - run_m.
    destruct (IsUnknown k6 CloudTestRun || negb upd
              || time.Seconds_le_30 (time.Since (clock w) t)); reflexivity.
Qed.

Lemma CreateJobs_create_recheck log (k6 : TestRun) tokenInfo w res w' :
  createJobSpecs env log k6 tokenInfo (logged (LogInfo log "Creating test jobs" []) w)
    = ((res, true, None), w') ->
  CreateJobs_create env log k6 tokenInfo w = ((k6, res, None), w').
Proof.
  intros H. unfold CreateJobs_create. run_m.
  fold (logged (LogInfo log "Creating test jobs" []) w). by rewrite H.
Qed.

Lemma reported_nil w : reported [] w = w.
Proof. destruct w. unfold reported. simpl. by rewrite app_nil_r. Qed.

Lemma CreateJobs_create_error log (k6 : TestRun) tokenInfo w res recheck err w' :
  createJobSpecs env log k6 tokenInfo (logged (LogInfo log "Creating test jobs" []) w)
    = ((res, recheck, Some err), w') ->
  CreateJobs_create env log k6 tokenInfo w =
    ((k6, res, Some err),
     reported (if IsTrue k6 CloudTestRun then [create_failed_event k6 err] else []) w').
Proof.
  intros H. unfold CreateJobs_create. run_m.
  fold (logged (LogInfo log "Creating test jobs" []) w). rewrite H.
  destruct (IsTrue k6 CloudTestRun); run_m; [done|].
  by rewrite reported_nil.
Qed.

End Creation.

(** C5.  When the lookup of the index-1 job finds it, or fails with an error
    other than not-found, then: while the CloudTestRun condition is Unknown,
    or absent, or changed at most 30 seconds ago, the pass returns a requeue
    after 10 seconds and no error; and once the condition is known and
    changed more than 30 seconds ago, the pass returns a fatal error, which
    tells of the existing job when the job was found and is the error of the
    lookup otherwise.  Nothing is created in either case. *)
Theorem C5_creation_conflict {C : Type} (env : Env (C := C)) (log : Logger)
    (k6 : TestRun) (tokenInfo : TokenInfo) (w : World (C := C)) (got : option error) :
  client_Get env {| nn_Name := Name k6 +:+ "-1"; nn_Namespace := Namespace k6 |}
    (cluster w) = got ->
  match got with None => True | Some e => apiNotFound e = false end ->
  let t := (LastUpdate k6 CloudTestRun).1 in
  let condUpdated := (LastUpdate k6 CloudTestRun).2 in
  let err :=
    match got with
    | None =>
        errors_New ("job with the name " +:+ (Name k6 +:+ "-1")
                    +:+ " exists; make sure you've deleted your previous run")
    | Some e => e
    end in
  (IsUnknown k6 CloudTestRun = true \/ condUpdated = false
   \/ clock w - t <= 30 * time.Second ->
   (createJobSpecs env log k6 tokenInfo w).1 =
     ({| Requeue := false; RequeueAfter := time.Second * 10 |}, true, None) /\
   (CreateJobs_create env log k6 tokenInfo w).1 =
     (k6, {| Requeue := false; RequeueAfter := time.Second * 10 |}, None)) /\
  (IsUnknown k6 CloudTestRun = false -> condUpdated = true ->
   30 * time.Second < clock w - t ->
   (createJobSpecs env log k6 tokenInfo w).1 = (Result_zero, false, Some err) /\
   (CreateJobs_create env log k6 tokenInfo w).1 = (k6, Result_zero, Some err)) /\
  cluster (createJobSpecs env log k6 tokenInfo w).2 = cluster w /\
  cluster (CreateJobs_create env log k6 tokenInfo w).2 = cluster w.
Proof.
  intros Hget Hconf t condUpdated err.
  pose proof (createJobSpecs_conflict env log k6 tokenInfo w got Hget Hconf) as Hw.
  pose proof (createJobSpecs_conflict env log k6 tokenInfo
                (logged (LogInfo log "Creating test jobs" []) w) got Hget Hconf) as Hl.
  simpl in Hl. fold t condUpdated in Hw, Hl.
  change (conflict_error k6 got) with err in Hw, Hl.
  assert (Hle : time.Seconds_le_30 (time.Since (clock w) t) = true
                <-> clock w - t <= 30 * time.Second).
  { unfold time.Seconds_le_30. rewrite Z.leb_le. apply Since_le.
    unfold time.maxDuration, time.Second. lia. }
  destruct (IsUnknown k6 CloudTestRun || negb condUpdated
            || time.Seconds_le_30 (time.Since (clock w) t)) eqn:Hgrace.
  - split; [|split; [|split]].
    + intros _. rewrite Hw. split; [done|].
      by rewrite (CreateJobs_create_recheck env log k6 tokenInfo w _ _ Hl).
    + intros Hk Hu Hlate. rewrite Hk, Hu in Hgrace. simpl in Hgrace.
      apply Hle in Hgrace. lia.
    + by rewrite Hw.
    + by rewrite (CreateJobs_create_recheck env log k6 tokenInfo w _ _ Hl).
  - split; [|split; [|split]].
    + intros Hor. exfalso.
      apply orb_false_iff in Hgrace as [Hg1 Hg3].
      apply orb_false_iff in Hg1 as [Hg1 Hg2].
      destruct Hor as [H|[H|H]].
      * congruence.
      * rewrite H in Hg2. done.
      * apply Hle in H. congruence.
    + intros _ _ _. rewrite Hw. split; [done|].
      by rewrite (CreateJobs_create_error env log k6 tokenInfo w _ _ _ _ Hl).
    + by rewrite Hw.
    + rewrite (CreateJobs_create_error env log k6 tokenInfo w _ _ _ _ Hl).
      done.
Qed.

Lemma C5_creation_conflict_witness :
  let k6 := fake.fresh 2 [ {| Type_ := CloudTestRun; Status_ := ConditionFalse;
                            LastTransitionTime := 0 |} ] in
  let early := fake.world fake.stale_cluster (fake.queue 4) (20 * time.Second) in
  let late := fake.world fake.stale_cluster (fake.queue 4) (31 * time.Second) in
  client_Get fake.env {| nn_Name := "load-1"; nn_Namespace := "perf" |} fake.stale_cluster
    = None /\
  (CreateJobs_create fake.env [] k6 (NewTokenInfo "" "perf") early).1 =
    (k6, {| Requeue := false; RequeueAfter := time.Second * 10 |}, None) /\
  (CreateJobs_create fake.env [] k6 (NewTokenInfo "" "perf") late).1.2 =
    Some (errors_New
            "job with the name load-1 exists; make sure you've deleted your previous run").
Proof.
  intros k6 early late. split; [reflexivity|]. split.
  - destruct (C5_creation_conflict fake.env [] k6 (NewTokenInfo "" "perf") early None)
      as (H & _); [reflexivity | exact I |].
    apply H. right. right. vm_compute. discriminate.
  - destruct (C5_creation_conflict fake.env [] k6 (NewTokenInfo "" "perf") late None)
      as (_ & H & _); [reflexivity | exact I |].
    destruct H as [_ H]; [reflexivity | reflexivity | vm_compute; reflexivity |].
    rewrite H. reflexivity.
Defined.

Section Launch.
Context {C : Type} (env : Env (C := C)).
Implicit Types (w : World (C := C)) (log : Logger).

Lemma launchTest_service_refused log (k6 : TestRun) tokenInfo cm i w
    job0 job c1 svc0 svc e c2 :
  NewRunnerJob env k6 i tokenInfo cm = (job0, None) ->
  own_job env k6 job0 = (job, None) ->
  client_Create env (ObjJob job) (cluster w) = (None, c1) ->
  UseDirectPodIPs (GetSpec k6) = false ->
  NewRunnerService env k6 i = (svc0, None) ->
  own_service env k6 svc0 = (svc, None) ->
  client_Create env (ObjService svc) c1 = (Some e, c2) ->
  launchTest env k6 i log tokenInfo cm w =
    (Some e,
     {| cluster := c2; testRequests := testRequests w; cloudEvents := cloudEvents w;
        logs := ((logs w ++ [LogInfo log ("Launching k6 test #" +:+ fmt_d i) []])
                 ++ [LogInfo log
                       ("Runner job is ready to start with image `" +:+ job_Image job0
                        +:+ "` and command `" +:+ fmt_s_strings (job_Command job0)
                        +:+ "`") []])
                ++ [LogError log e "Failed to launch k6 test services" []];
        clock := clock w |}).
Proof.
  intros Hjob Hown Hcreate Hdirect Hsvc Hmeta Hrefused.
  unfold launchTest. run_m.
  rewrite Hjob. simpl. rewrite Hown. simpl. rewrite Hcreate. simpl.
  rewrite Hdirect. simpl. rewrite Hsvc, Hmeta. simpl. rewrite Hrefused. reflexivity.
Qed.

Lemma launchTests_app (k6 : TestRun) log tokenInfo cm prefix rest w0 w :
  launchTests env k6 prefix log tokenInfo cm w0 = (None, w) ->
  launchTests env k6 (prefix ++ rest) log tokenInfo cm w0 =
    launchTests env k6 rest log tokenInfo cm w.
Proof.
  revert w0. induction prefix as [|i prefix IH]; intros w0; simpl.
  - by intros [= ->].
  - run_m. destruct (launchTest env k6 i log tokenInfo cm w0) as [[e|] w1]; [done|].
    apply IH.
Qed.

Lemma launchTests_stop (k6 : TestRun) log tokenInfo cm i rest w e w' :
  launchTest env k6 i log tokenInfo cm w = (Some e, w') ->
  launchTests env k6 (i :: rest) log tokenInfo cm w = (Some e, w').
Proof. intros H. simpl. run_m. by rewrite H. Qed.

Lemma createJobSpecs_launch log (k6 : TestRun) tokenInfo w nf cm w0 e w' :
  client_Get env (index1_name k6) (cluster w) = Some nf ->
  apiNotFound nf = true ->
  createJobSpecs_configmap env k6 w = ((cm, None), w0) ->
  launchTests env k6 (seqZ 1 (Parallelism (GetSpec k6))) log tokenInfo cm w0
    = (Some e, w') ->
  createJobSpecs env log k6 tokenInfo w = ((Result_zero, false, Some e), w').
Proof.
  intros Hget Hnf Hcm Hlaunch. unfold createJobSpecs. run_m.
  fold (index1_name k6). rewrite Hget, Hnf. simpl.
  rewrite Hcm. rewrite Hlaunch. reflexivity.
Qed.

Lemma indices_split i N :
  1 <= i <= N -> seqZ 1 N = seqZ 1 (i - 1) ++ i :: seqZ (i + 1) (N - i).
Proof.
  intros Hi. replace N with ((i - 1) + (N - (i - 1))) at 1 by lia.
  rewrite seqZ_app by lia. f_equal.
  rewrite seqZ_cons by lia. f_equal; [lia|]. f_equal; lia.
Qed.

End Launch.

(** C8, as the code has it.  When, at some index of a creation pass, the
    job is created and the creation of its service then fails, the failure
    is logged and returned: the loop stops at that index, the pass ends with
    that error and without advancing the stage, and a cloud-backed run
    reports an abort event.  The job is not retracted: the last call made on
    the cluster is the refused creation of the service. *)
Theorem C8_service_failure_surfaces {C : Type} (env : Env (C := C)) (log : Logger)
    (k6 : TestRun) (tokenInfo : TokenInfo) (win w0 w : World (C := C))
    (nf e : error) (cm : option ConfigMap) (i : Z) (job0 job : Job)
    (svc0 svc : Service) (c1 c2 : C) :
  client_Get env {| nn_Name := Name k6 +:+ "-1"; nn_Namespace := Namespace k6 |}
    (cluster win) = Some nf ->
  apiNotFound nf = true ->
  createJobSpecs_configmap env k6 (logged (LogInfo log "Creating test jobs" []) win)
    = ((cm, None), w0) ->
  1 <= i <= Parallelism (GetSpec k6) ->
  launchTests env k6 (seqZ 1 (i - 1)) log tokenInfo cm w0 = (None, w) ->
  NewRunnerJob env k6 i tokenInfo cm = (job0, None) ->
  own_job env k6 job0 = (job, None) ->
  client_Create env (ObjJob job) (cluster w) = (None, c1) ->
  UseDirectPodIPs (GetSpec k6) = false ->
  NewRunnerService env k6 i = (svc0, None) ->
  own_service env k6 svc0 = (svc, None) ->
  client_Create env (ObjService svc) c1 = (Some e, c2) ->
  let r := CreateJobs_create env log k6 tokenInfo win in
  r.1 = (k6, Result_zero, Some e) /\
  cluster r.2 = c2 /\
  last (logs r.2) = Some (LogError log e "Failed to launch k6 test services" []) /\
  cloudEvents r.2 =
    cloudEvents w ++
      (if IsTrue k6 CloudTestRun then
         [(TestRunID_of k6,
           {| ev_Kind := K6OperatorStartError;
              ev_Detail := "Failed to create runner jobs: " +:+ Error e;
              ev_Abort := true |})]
       else []).
Proof.
  intros Hget Hnf Hcm Hi Hprefix Hjob Hown Hcreate Hdirect Hsvc Hmeta Hrefused r.
  pose proof (launchTest_service_refused env log k6 tokenInfo cm i w
                job0 job c1 svc0 svc e c2 Hjob Hown Hcreate Hdirect Hsvc Hmeta Hrefused)
    as Hlaunch.
  pose proof (launchTests_stop env k6 log tokenInfo cm i
                (seqZ (i + 1) (Parallelism (GetSpec k6) - i)) w e _ Hlaunch) as Hstop.
  rewrite <- (launchTests_app env k6 log tokenInfo cm (seqZ 1 (i - 1)) _ w0 w Hprefix)
    in Hstop.
  rewrite <- indices_split in Hstop by done.
  pose proof (createJobSpecs_launch env log k6 tokenInfo
                (logged (LogInfo log "Creating test jobs" []) win) nf cm w0 e _
                Hget Hnf Hcm Hstop) as Hspecs.
  subst r.
  rewrite (CreateJobs_create_error env log k6 tokenInfo win _ _ _ _ Hspecs).
  simpl. repeat split.
  all: try by rewrite last_snoc.
  all: by destruct (IsTrue k6 CloudTestRun).
Qed.

Lemma C8_service_failure_surfaces_witness :
  let k6 := fake.fresh 3 [] in
  let win := fake.world fake.refusing_cluster (fake.queue 4) 0 in
  UseDirectPodIPs (GetSpec k6) = false /\
  (CreateJobs_create fake.env [] k6 (NewTokenInfo "" "perf") win).1 =
    (k6, Result_zero, Some (errors_New "service refused")) /\
  length (fake.objects (cluster (CreateJobs_create fake.env [] k6
                                   (NewTokenInfo "" "perf") win).2)) = 4%nat.
Proof.
  intros k6 win. split; [reflexivity|].
  epose proof (C8_service_failure_surfaces fake.env [] k6 (NewTokenInfo "" "perf") win
                 _ _ fake.notFound (errors_New "service refused") _ 2) as H.
  edestruct H as (H1 & H2 & _); clear H.
  - reflexivity.
  - reflexivity.
  - vm_compute. reflexivity.
  - vm_compute. split; discriminate.
  - vm_compute. reflexivity.
  - reflexivity.
  - reflexivity.
  - vm_compute. reflexivity.
  - reflexivity.
  - reflexivity.
  - reflexivity.
  - vm_compute. reflexivity.
  - split; [exact H1|]. rewrite H2. reflexivity.
Defined.

(** C8 as written fails on the code: with three runners, the job of the
    second created and its service refused by the cluster, the creation pass
    returns the error of the refused service and leaves the stage as it
    was; the job of the second runner stays in the cluster and the third
    runner is not launched. *)
Lemma C8_counterexample :
  let k6 := fake.fresh 3 [] in
  let r := CreateJobs fake.env [] k6 (fake.world fake.refusing_cluster (fake.queue 4) 0) in
  r.1.2 = Some (errors_New "service refused") /\
  Stage (GetStatus r.1.1.1) = "initialized" /\
  existsb (fake.has_job {| nn_Name := "load-2"; nn_Namespace := "perf" |})
          (fake.objects (cluster r.2)) = true /\
  existsb (fake.has_job {| nn_Name := "load-3"; nn_Namespace := "perf" |})
          (fake.objects (cluster r.2)) = false /\
  last (logs r.2) =
    Some (LogError [] (errors_New "service refused")
                   "Failed to launch k6 test services" []).
Proof. vm_compute. repeat split. Qed.
